(** * Credit-card recommendation engine: a shallow embedding

    The development follows [backend/app/services/recommendation_engine.py]
    and the tables of [backend/app/db/models.py].

    Conventions of the embedding:
    - a Python [float] is an exact rational ([Q]); sums, products and
      comparisons are the rational ones, and results are compared with [==];
    - a database session is a record of tables (lists of rows, in the order
      the queries return them); a query is a filter over a table, except
      the grouped statement of [get_user_spending_pattern], which is kept
      as syntax and handed to the database;
    - a call that can raise returns an [Outcome]: the value returned or the
      exception raised;
    - a [Dict[str, float]] is the list of its items in iteration order;
    - a naive [datetime] is a number of seconds since 1970-01-01 00:00. *)

From Stdlib Require Import ZArith QArith Qminmax Bool List String Lia Permutation Sorted.
From Stdlib Require Import DecimalString.
Import ListNotations.

Local Open Scope Z_scope.
Local Open Scope Q_scope.
Local Open Scope string_scope.
Local Open Scope list_scope.

(** ** Rational comparisons, as the float comparisons of the source *)

Definition Qgtb (x y : Q) : bool := negb (Qle_bool x y).

Definition Qltb (x y : Q) : bool := Qgtb y x.

(** Python's [min(a, b)]: [b] when [b < a], else [a]. *)
Definition py_min (a b : Q) : Q := if Qltb b a then b else a.

(** Truth value of an [Optional[float]]: [None] and [0.0] are false. *)
Definition truthy (x : option Q) : bool :=
  match x with
  | None => false
  | Some v => negb (Qeq_bool v 0)
  end.

Definition Qsum (l : list Q) : Q := fold_left Qplus l 0.

(** ** Tables ([app/db/models.py]) *)

Inductive CardType : Set := CT_CASHBACK | CT_POINTS | CT_MILES | CT_ISLAMIC.

Inductive RewardType : Set := CASHBACK | POINTS | MILES.

(** [RewardType.value] *)
Definition value (t : RewardType) : string :=
  match t with
  | CASHBACK => "cashback"
  | POINTS => "points"
  | MILES => "miles"
  end.

Module CreditCard.
Record t : Type := mk {
  id : Z;
  name : string;
  bank : string;
  card_type : CardType;
  annual_fee : Q;
  is_active : bool
}.
End CreditCard.

Module Category.
Record t : Type := mk {
  id : Z;
  name : string
}.
End Category.

Module Merchant.
Record t : Type := mk {
  id : Z;
  name : string;
  category_id : Z
}.
End Merchant.

Module CardReward.
Record t : Type := mk {
  id : Z;
  credit_card_id : Z;
  category_id : option Z;
  merchant_id : option Z;
  reward_type : RewardType;
  reward_rate : Q;
  minimum_spend : Q;
  maximum_spend : option Q;
  is_active : bool
}.
End CardReward.

Module UserCard.
Record t : Type := mk {
  id : Z;
  user_id : Z;
  credit_card_id : Z;
  is_active : bool
}.
End UserCard.

Module Expense.
Record t : Type := mk {
  id : Z;
  user_id : Z;
  merchant_id : Z;
  amount : Q;
  expense_date : Z
}.
End Expense.

(** The database behind [self.db]. *)
Record Session : Type := mkSession {
  credit_cards : list CreditCard.t;
  categories : list Category.t;
  merchants : list Merchant.t;
  card_rewards : list CardReward.t;
  user_cards : list UserCard.t;
  expenses : list Expense.t
}.

(** ** Queries and relationships *)

Definition opt_Z_eqb (a : option Z) (b : Z) : bool :=
  match a with
  | Some x => Z.eqb x b
  | None => false
  end.

Definition is_None {A : Type} (a : option A) : bool :=
  match a with
  | Some _ => false
  | None => true
  end.

(** [db.query(CardReward).filter(credit_card_id == card.id, is_active == True).all()] *)
Definition active_rewards (db : Session) (card : CreditCard.t) : list CardReward.t :=
  filter (fun r => Z.eqb (CardReward.credit_card_id r) (CreditCard.id card)
                   && CardReward.is_active r)
         (card_rewards db).

(** The same query with the extra criterion [CardReward.category == None],
    which SQLAlchemy renders as [category_id IS NULL]. *)
Definition active_general_rewards (db : Session) (card : CreditCard.t) : list CardReward.t :=
  filter (fun r => Z.eqb (CardReward.credit_card_id r) (CreditCard.id card)
                   && CardReward.is_active r
                   && is_None (CardReward.category_id r))
         (card_rewards db).

(** The relationship [reward.category]: the row the foreign key points to. *)
Definition category (db : Session) (r : CardReward.t) : option Category.t :=
  match CardReward.category_id r with
  | None => None
  | Some cid => find (fun c => Z.eqb (Category.id c) cid) (categories db)
  end.

(** [reward.category and reward.category.name == category] *)
Definition category_is (db : Session) (r : CardReward.t) (cat : string) : bool :=
  match category db r with
  | Some c => String.eqb (Category.name c) cat
  | None => false
  end.

(** The capped amount both calculators compute for a rule:
    [annual_amount], or [min(annual_amount, maximum_spend * 12)]. *)
Definition applicable (r : CardReward.t) (annual_amount : Q) : Q :=
  if truthy (CardReward.maximum_spend r) then
    match CardReward.maximum_spend r with
    | Some m => py_min annual_amount (m * 12)
    | None => annual_amount
    end
  else annual_amount.

(** ** [calculate_card_rewards] *)

Module Breakdown.
Record t : Type := mk {
  amount : Q;
  rate : Q;
  type : string
}.
End Breakdown.

Record Rewards : Type := mkRewards {
  total_cashback : Q;
  total_points : Q;
  category_breakdown : list (string * Breakdown.t)
}.

(** [d[k] = v] on a dict kept as its item list. *)
Fixpoint dict_set {V : Type} (k : string) (v : V) (d : list (string * V)) : list (string * V) :=
  match d with
  | [] => [(k, v)]
  | (k', v') :: d' =>
      if String.eqb k' k then (k, v) :: d' else (k', v') :: dict_set k v d'
  end.

(** One iteration of the first inner loop (lines 57-66): the state is
    [(best_reward_rate, reward_type)]. [applicable_amount] is assigned and
    not read again. *)
Definition rate_step_category (db : Session) (cat : string) (annual_amount : Q)
    (st : Q * string) (reward : CardReward.t) : Q * string :=
  if category_is db reward cat then
    let applicable_amount := applicable reward annual_amount in
    if Qgtb (CardReward.reward_rate reward) (fst st)
    then (CardReward.reward_rate reward, value (CardReward.reward_type reward))
    else st
  else st.

(** One iteration of the second inner loop (lines 70-78). *)
Definition rate_step_general (db : Session) (annual_amount : Q)
    (st : Q * string) (reward : CardReward.t) : Q * string :=
  if is_None (category db reward) then
    let applicable_amount := applicable reward annual_amount in
    if Qgtb (CardReward.reward_rate reward) (fst st)
    then (CardReward.reward_rate reward, value (CardReward.reward_type reward))
    else st
  else st.

(** Lines 52-79: the rate and kind chosen for one category. *)
Definition best_rate (db : Session) (rewards : list CardReward.t)
    (cat : string) (annual_amount : Q) : Q * string :=
  let st := fold_left (rate_step_category db cat annual_amount) rewards (0, "cashback") in
  if Qeq_bool (fst st) 0
  then fold_left (rate_step_general db annual_amount) rewards st
  else st.

(** Lines 51-91 for one item of the profile. *)
Definition category_entry (db : Session) (rewards : list CardReward.t)
    (cat : string) (monthly_amount : Q) : Breakdown.t :=
  let annual_amount := monthly_amount * 12 in
  let st := best_rate db rewards cat annual_amount in
  Breakdown.mk (annual_amount * fst st) (fst st) (snd st).

Definition rewards_step (db : Session) (rewards : list CardReward.t)
    (acc : Rewards) (item : string * Q) : Rewards :=
  let e := category_entry db rewards (fst item) (snd item) in
  let breakdown := dict_set (fst item) e (category_breakdown acc) in
  if String.eqb (Breakdown.type e) "cashback"
  then mkRewards (total_cashback acc + Breakdown.amount e) (total_points acc) breakdown
  else mkRewards (total_cashback acc) (total_points acc + Breakdown.amount e) breakdown.

Definition calculate_card_rewards (db : Session) (card : CreditCard.t)
    (spending_pattern : list (string * Q)) : Rewards :=
  fold_left (rewards_step db (active_rewards db card)) spending_pattern
            (mkRewards 0 0 []).

(** ** [_calculate_combination_rewards] *)

Module Combination.
Record t : Type := mk {
  total_cashback : Q;
  total_points : Q
}.
End Combination.

(** Body of both reward loops (lines 167-174 and 186-193): the state is
    [(best_reward, best_type)]. *)
Definition amount_step (annual_amount : Q) (st : Q * string)
    (reward : CardReward.t) : Q * string :=
  let applicable_amount := applicable reward annual_amount in
  let reward_amount := applicable_amount * CardReward.reward_rate reward in
  if Qgtb reward_amount (fst st)
  then (reward_amount, value (CardReward.reward_type reward))
  else st.

Definition amount_step_category (db : Session) (cat : string) (annual_amount : Q)
    (st : Q * string) (reward : CardReward.t) : Q * string :=
  if category_is db reward cat then amount_step annual_amount st reward else st.

(** Lines 155-193: the reward and kind chosen for one category. *)
Definition best_amount (db : Session) (cards : list CreditCard.t)
    (cat : string) (annual_amount : Q) : Q * string :=
  let st :=
    fold_left (fun st card =>
                 fold_left (amount_step_category db cat annual_amount)
                           (active_rewards db card) st)
              cards (0, "cashback") in
  if Qeq_bool (fst st) 0
  then fold_left (fun st card =>
                    fold_left (amount_step annual_amount)
                              (active_general_rewards db card) st)
                 cards st
  else st.

Definition combination_step (db : Session) (cards : list CreditCard.t)
    (acc : Combination.t) (item : string * Q) : Combination.t :=
  let annual_amount := snd item * 12 in
  let st := best_amount db cards (fst item) annual_amount in
  if String.eqb (snd st) "cashback"
  then Combination.mk (Combination.total_cashback acc + fst st) (Combination.total_points acc)
  else Combination.mk (Combination.total_cashback acc) (Combination.total_points acc + fst st).

Definition _calculate_combination_rewards (db : Session) (cards : list CreditCard.t)
    (spending_pattern : list (string * Q)) : Combination.t :=
  fold_left (combination_step db cards) spending_pattern (Combination.mk 0 0).

(** ** Outcomes of calls *)

Record HTTPException : Type := mkHTTPException {
  status_code : Z;
  detail : string
}.

(** The exceptions the functions below raise: [sqlalchemy.exc.DBAPIError]
    (its subclass [OperationalError] or [ProgrammingError], by the driver)
    when the database refuses a statement, and FastAPI's [HTTPException]. *)
Inductive Exception : Type :=
| DBAPIError
| HTTP (e : HTTPException).

(** A call returns a value or raises an exception. *)
Inductive Outcome (A : Type) : Type :=
| Returned (a : A)
| Raised (e : Exception).

Arguments Returned {A} a.
Arguments Raised {A} e.

(** Sequencing: an exception raised by [c] ends the caller as well. *)
Definition bind {A B : Type} (c : Outcome A) (k : A -> Outcome B) : Outcome B :=
  match c with
  | Returned a => k a
  | Raised e => Raised e
  end.

Notation "x <- c ;; k" := (bind c (fun x => k))
  (at level 61, c at next level, right associativity).

(** ** [get_user_spending_pattern] *)

(** Days since 1970-01-01 to (year, month) of the proleptic Gregorian
    calendar: SQL's [extract('year', d)] and [extract('month', d)]. *)
Definition civil_year_month (days : Z) : Z * Z :=
  let z := (days + 719468)%Z in
  let era := (z / 146097)%Z in
  let doe := (z - era * 146097)%Z in
  let yoe := ((doe - doe / 1460 + doe / 36524 - doe / 146096) / 365)%Z in
  let doy := (doe - (365 * yoe + yoe / 4 - yoe / 100))%Z in
  let mp := ((5 * doy + 2) / 153)%Z in
  let m := (if mp <? 10 then mp + 3 else mp - 9)%Z in
  let y := (yoe + era * 400 + (if m <=? 2 then 1 else 0))%Z in
  (y, m).

Definition year_month (t : Z) : Z * Z := civil_year_month (t / 86400)%Z.

(** [timedelta(days=d)] in seconds *)
Definition timedelta_days (d : Z) : Z := (d * 86400)%Z.

(** The rows of [Category JOIN Merchant JOIN Expense] that pass the filter. *)
Definition spending_rows (db : Session) (user_id start_date end_date : Z)
    : list (Category.t * Expense.t) :=
  flat_map (fun c =>
    flat_map (fun m =>
      if Z.eqb (Category.id c) (Merchant.category_id m) then
        flat_map (fun e =>
          if Z.eqb (Merchant.id m) (Expense.merchant_id e)
             && Z.eqb (Expense.user_id e) user_id
             && Z.leb start_date (Expense.expense_date e)
             && Z.leb (Expense.expense_date e) end_date
          then [(c, e)] else [])
          (expenses db)
      else [])
      (merchants db))
    (categories db).

(** The statement the query builder emits: one [SELECT] with its list of
    expressions and one [GROUP BY] list. *)
Inductive Column : Set :=
| Category_id | Category_name | Expense_amount | Expense_expense_date.

Inductive DateField : Set := Year | Month.

Inductive SqlExpr : Set :=
| Col (c : Column)
| func_sum (e : SqlExpr)
| func_avg (e : SqlExpr)
| extract (field : DateField) (e : SqlExpr).

Record Select : Set := mkSelect {
  select_list : list SqlExpr;
  group_by : list SqlExpr
}.

(** [.group_by(...)] appends its columns to the [GROUP BY] list. *)
Definition add_group_by (columns : list SqlExpr) (stmt : Select) : Select :=
  mkSelect (select_list stmt) (group_by stmt ++ columns).

(** Lines 21-36: the statement of [get_user_spending_pattern]. *)
Definition spending_statement : Select :=
  add_group_by [Col Category_id; Col Category_name]
    (add_group_by [Col Category_id; Col Category_name;
                   extract Year (Col Expense_expense_date);
                   extract Month (Col Expense_expense_date)]
       (mkSelect [Col Category_name; func_avg (func_sum (Col Expense_amount))] [])).

(** An aggregate call occurs in an expression; an aggregate call occurs in
    the argument of an aggregate call. *)
Fixpoint has_aggregate (e : SqlExpr) : bool :=
  match e with
  | Col _ => false
  | func_sum _ | func_avg _ => true
  | extract _ a => has_aggregate a
  end.

Fixpoint nested_aggregate (e : SqlExpr) : bool :=
  match e with
  | Col _ => false
  | func_sum a | func_avg a => has_aggregate a
  | extract _ a => nested_aggregate a
  end.

(** The values of a result row. *)
Inductive SqlValue : Type :=
| SqlInt (z : Z)
| SqlText (s : string)
| SqlNum (q : Q)
| SqlNull.

Definition value_eqb (v w : SqlValue) : bool :=
  match v, w with
  | SqlInt a, SqlInt b => Z.eqb a b
  | SqlText a, SqlText b => String.eqb a b
  | SqlNum a, SqlNum b => Qeq_bool a b
  | SqlNull, SqlNull => true
  | _, _ => false
  end.

Fixpoint values_eqb (vs ws : list SqlValue) : bool :=
  match vs, ws with
  | [], [] => true
  | v :: vs', w :: ws' => value_eqb v w && values_eqb vs' ws'
  | _, _ => false
  end.

Definition column_value (c : Column) (row : Category.t * Expense.t) : SqlValue :=
  match c with
  | Category_id => SqlInt (Category.id (fst row))
  | Category_name => SqlText (Category.name (fst row))
  | Expense_amount => SqlNum (Expense.amount (snd row))
  | Expense_expense_date => SqlInt (Expense.expense_date (snd row))
  end.

(** An expression without aggregate, on one joined row. *)
Fixpoint scalar (e : SqlExpr) (row : Category.t * Expense.t) : SqlValue :=
  match e with
  | Col c => column_value c row
  | extract field a =>
      match scalar a row with
      | SqlInt t => SqlInt (match field with
                            | Year => fst (year_month t)
                            | Month => snd (year_month t)
                            end)
      | _ => SqlNull
      end
  | func_sum _ | func_avg _ => SqlNull
  end.

(** The numbers among values: aggregates skip [NULL]. *)
Definition numbers (vs : list SqlValue) : list Q :=
  flat_map (fun v => match v with
                     | SqlNum q => [q]
                     | SqlInt z => [inject_Z z]
                     | _ => []
                     end) vs.

(** SQL [avg] *)
Definition avg (l : list Q) : Q := Qsum l / inject_Z (Z.of_nat (List.length l)).

(** An expression of the select list, on the rows of one group. *)
Definition aggregate (e : SqlExpr) (rows : list (Category.t * Expense.t)) : SqlValue :=
  match e with
  | func_sum a => SqlNum (Qsum (numbers (map (scalar a) rows)))
  | func_avg a => SqlNum (avg (numbers (map (scalar a) rows)))
  | _ => match rows with
         | row :: _ => scalar e row
         | [] => SqlNull
         end
  end.

(** Keys of a list in order of first appearance. *)
Fixpoint distinct {K : Type} (eqb : K -> K -> bool) (l : list K) : list K :=
  match l with
  | [] => []
  | k :: l' => k :: filter (fun k' => negb (eqb k' k)) (distinct eqb l')
  end.

(** [.all()]: the database refuses a statement in whose select list an
    aggregate call is nested in another (SQLite: misuse of aggregate
    function; PostgreSQL: aggregate function calls cannot be nested).  A
    grouped statement it accepts yields one row per distinct value of the
    [GROUP BY] list. *)
Definition all (stmt : Select) (rows : list (Category.t * Expense.t))
    : Outcome (list (list SqlValue)) :=
  if existsb nested_aggregate (select_list stmt) then Raised DBAPIError
  else
    let key row := map (fun e => scalar e row) (group_by stmt) in
    Returned
      (map (fun k =>
              map (fun e => aggregate e (filter (fun row => values_eqb (key row) k) rows))
                  (select_list stmt))
           (distinct values_eqb (map key rows))).

(** [{category: float(amount) for category, amount in spending_by_category}] *)
Definition spending_dict (spending_by_category : list (list SqlValue))
    : list (string * Q) :=
  fold_left (fun d row =>
               match row with
               | [SqlText category; SqlNum amount] => dict_set category amount d
               | _ => d
               end)
            spending_by_category [].

Definition get_user_spending_pattern (db : Session) (now : Z) (user_id : Z)
    (months : Z) : Outcome (list (string * Q)) :=
  let end_date := now in
  let start_date := (end_date - timedelta_days (months * 30))%Z in
  spending_by_category <-
    all spending_statement (spending_rows db user_id start_date end_date) ;;
  Returned (spending_dict spending_by_category).

(** ** [optimize_card_combination] *)

Record CardCombination : Type := mkCardCombination {
  cards : list CreditCard.t;
  projected_cashback : Q;
  projected_points : Q;
  total_annual_fee : Q;
  net_benefit : Q
}.

(** [range(start, stop)] *)
Definition py_range (start stop : Z) : list Z :=
  map (fun i => (start + Z.of_nat i)%Z) (seq 0 (Z.to_nat (stop - start))).

(** [itertools.combinations(l, r)]: the [r]-element subsequences of [l], in
    lexicographic order of positions. *)
Fixpoint combinations {A : Type} (l : list A) (r : nat) : list (list A) :=
  match l with
  | [] => match r with O => [[]] | S _ => [] end
  | x :: xs =>
      match r with
      | O => [[]]
      | S r' => map (cons x) (combinations xs r') ++ combinations xs r
      end
  end.

(** [list.sort(key=key, reverse=True)]: stable, largest key first. *)
Fixpoint insert_desc {A : Type} (key : A -> Q) (x : A) (l : list A) : list A :=
  match l with
  | [] => [x]
  | y :: l' => if Qltb (key x) (key y) then y :: insert_desc key x l' else x :: y :: l'
  end.

Definition sort_desc {A : Type} (key : A -> Q) (l : list A) : list A :=
  fold_right (insert_desc key) [] l.

(** Lines 123-140: the [CardCombination] built for one subset. *)
Definition score_combination (db : Session) (spending_pattern : list (string * Q))
    (card_combination : list CreditCard.t) : CardCombination :=
  let combination_rewards := _calculate_combination_rewards db card_combination spending_pattern in
  let total_annual_fee := Qsum (map CreditCard.annual_fee card_combination) in
  let net_benefit := Combination.total_cashback combination_rewards - total_annual_fee in
  let points_cash_value := Combination.total_points combination_rewards * (1 # 100) in
  let total_benefit := net_benefit + points_cash_value in
  mkCardCombination card_combination
                    (Combination.total_cashback combination_rewards)
                    (Combination.total_points combination_rewards)
                    total_annual_fee
                    total_benefit.

(** [db.query(CreditCard).filter(CreditCard.is_active == True).all()] *)
Definition available_cards (db : Session) : list CreditCard.t :=
  filter CreditCard.is_active (credit_cards db).

(** Lines 103-146: what follows the call of [get_user_spending_pattern],
    for the profile [spending_pattern] it returned. *)
Definition optimize_with_pattern (db : Session) (spending_pattern : list (string * Q))
    (max_cards : Z) : list CardCombination :=
  match spending_pattern with
  | [] => []
  | _ :: _ =>
      let available := available_cards db in
      let best_combinations :=
        flat_map (fun num_cards =>
                    map (score_combination db spending_pattern)
                        (combinations available (Z.to_nat num_cards)))
                 (py_range 1 (Z.min (max_cards + 1) (Z.of_nat (List.length available) + 1))) in
      firstn 5 (sort_desc net_benefit best_combinations)
  end.

Definition optimize_card_combination (db : Session) (now : Z) (user_id : Z)
    (max_cards : Z) : Outcome (list CardCombination) :=
  spending_pattern <- get_user_spending_pattern db now user_id 3 ;;
  Returned (optimize_with_pattern db spending_pattern max_cards).

(** ** [get_purchase_recommendation] *)

Inductive Advice : Type :=
| NoActiveCards
| MerchantNotFound
| Recommended (id : Z) (name bank : string) (reward_amount : Q)
              (reward_type : string) (merchant category : string)
| NoSuitableCard
| AttributeError.

(** [query(UserCard).join(CreditCard).filter(...)], each row with the card
    its [credit_card] relationship loads. *)
Definition owned_active_cards (db : Session) (user_id : Z) : list CreditCard.t :=
  flat_map (fun uc =>
    if Z.eqb (UserCard.user_id uc) user_id && UserCard.is_active uc then
      match find (fun c => Z.eqb (CreditCard.id c) (UserCard.credit_card_id uc))
                 (credit_cards db) with
      | Some c => if CreditCard.is_active c then [c] else []
      | None => []
      end
    else [])
    (user_cards db).

(** Lines 234-244: the candidate reward of one rule. *)
Definition purchase_reward_amount (merchant : Merchant.t) (merchant_id : Z)
    (amount : Q) (reward : CardReward.t) : Q :=
  if opt_Z_eqb (CardReward.category_id reward) (Merchant.category_id merchant)
  then amount * CardReward.reward_rate reward
  else if opt_Z_eqb (CardReward.merchant_id reward) merchant_id
  then amount * CardReward.reward_rate reward
  else if is_None (CardReward.category_id reward) && is_None (CardReward.merchant_id reward)
  then amount * CardReward.reward_rate reward
  else 0.

(** Lines 233-249: the state is [(best_card, best_reward, best_type)]. *)
Definition purchase_step (merchant : Merchant.t) (merchant_id : Z) (amount : Q)
    (card : CreditCard.t) (st : option CreditCard.t * Q * string)
    (reward : CardReward.t) : option CreditCard.t * Q * string :=
  let reward_amount := purchase_reward_amount merchant merchant_id amount reward in
  if Qgtb reward_amount (snd (fst st))
  then (Some card, reward_amount, value (CardReward.reward_type reward))
  else st.

Definition purchase_scan (db : Session) (merchant : Merchant.t) (merchant_id : Z)
    (amount : Q) (owned : list CreditCard.t) : option CreditCard.t * Q * string :=
  fold_left (fun st card =>
               fold_left (purchase_step merchant merchant_id amount card)
                         (active_rewards db card) st)
            owned (None, 0, "cashback").

Definition get_purchase_recommendation (db : Session) (user_id merchant_id : Z)
    (amount : Q) : Advice :=
  match owned_active_cards db user_id with
  | [] => NoActiveCards
  | owned =>
      match find (fun m => Z.eqb (Merchant.id m) merchant_id) (merchants db) with
      | None => MerchantNotFound
      | Some merchant =>
          match purchase_scan db merchant merchant_id amount owned with
          | (Some best_card, best_reward, best_type) =>
              match find (fun c => Z.eqb (Category.id c) (Merchant.category_id merchant))
                         (categories db) with
              | Some c =>
                  Recommended (CreditCard.id best_card) (CreditCard.name best_card)
                              (CreditCard.bank best_card) best_reward best_type
                              (Merchant.name merchant) (Category.name c)
              | None => AttributeError
              end
          | (None, _, _) => NoSuitableCard
          end
      end
  end.

(** ** Auxiliary definitions used by the proofs *)

(** The (card, rule) pairs a loop over cards with an inner loop over each
    card's rules goes through, in order. *)
Definition card_rules {C R : Type} (rules : C -> list R) (cs : list C) : list (C * R) :=
  flat_map (fun c => map (pair c) (rules c)) cs.


(** A rule takes part in a purchase when one of the three tests of
    [purchase_reward_amount] accepts it. *)
Definition rule_applies (merchant : Merchant.t) (merchant_id : Z) (reward : CardReward.t) : bool :=
  opt_Z_eqb (CardReward.category_id reward) (Merchant.category_id merchant)
  || opt_Z_eqb (CardReward.merchant_id reward) merchant_id
  || (is_None (CardReward.category_id reward) && is_None (CardReward.merchant_id reward)).

(** Two rules that agree on every column but [minimum_spend]. *)
Definition same_rule_but_minimum_spend (r1 r2 : CardReward.t) : Prop :=
  CardReward.id r1 = CardReward.id r2
  /\ CardReward.credit_card_id r1 = CardReward.credit_card_id r2
  /\ CardReward.category_id r1 = CardReward.category_id r2
  /\ CardReward.merchant_id r1 = CardReward.merchant_id r2
  /\ CardReward.reward_type r1 = CardReward.reward_type r2
  /\ CardReward.reward_rate r1 = CardReward.reward_rate r2
  /\ CardReward.maximum_spend r1 = CardReward.maximum_spend r2
  /\ CardReward.is_active r1 = CardReward.is_active r2.

(** Two databases that differ at most in the [minimum_spend] of their rules. *)
Definition same_but_minimum_spend (db1 db2 : Session) : Prop :=
  credit_cards db1 = credit_cards db2
  /\ categories db1 = categories db2
  /\ merchants db1 = merchants db2
  /\ user_cards db1 = user_cards db2
  /\ expenses db1 = expenses db2
  /\ Forall2 same_rule_but_minimum_spend (card_rewards db1) (card_rewards db2).

(** A rule with its [minimum_spend] reset, and a database of such rules. *)
Definition forget_minimum_spend (r : CardReward.t) : CardReward.t :=
  CardReward.mk (CardReward.id r) (CardReward.credit_card_id r)
                (CardReward.category_id r) (CardReward.merchant_id r)
                (CardReward.reward_type r) (CardReward.reward_rate r)
                0 (CardReward.maximum_spend r) (CardReward.is_active r).

Definition forget_minimum_spends (db : Session) : Session :=
  mkSession (credit_cards db) (categories db) (merchants db)
            (map forget_minimum_spend (card_rewards db))
            (user_cards db) (expenses db).

(** The cap of a rule does not bind a monthly amount: there is no cap, or it
    is the falsy [0.0], or the amount does not exceed it. *)
Definition cap_not_binding (r : CardReward.t) (monthly_amount : Q) : Prop :=
  match CardReward.maximum_spend r with
  | Some m => m == 0 \/ monthly_amount <= m
  | None => True
  end.

(** A rule of [rewards] that the two calculators consult for an item of the
    profile, of category [cat] and monthly amount [monthly_amount]: a rule
    of that category, or a rule without category when no rule of that
    category earns a positive reward on the item. *)
Definition consulted (db : Session) (rewards : list CardReward.t) (cat : string)
    (monthly_amount : Q) (r : CardReward.t) : Prop :=
  category_is db r cat = true
  \/ (CardReward.category_id r = None
      /\ forall r', In r' rewards -> category_is db r' cat = true ->
                    monthly_amount * CardReward.reward_rate r' <= 0).

(** The foreign key [category_id] of a rule, when set, points to a row. *)
Definition category_resolves (db : Session) (r : CardReward.t) : Prop :=
  CardReward.category_id r = None \/ category db r <> None.

(** The state of the rate loops and of the amount loops agree, for an annual
    amount [ann]: same kind, and the amount is [ann] times the rate. *)
Definition rate_amount_agree (ann : Q) (s1 s2 : Q * string) : Prop :=
  fst s2 == ann * fst s1 /\ snd s2 = snd s1.

(** A database whose rules carry the caps [cap] assigns them. *)
Definition set_caps (cap : CardReward.t -> option Q) (db : Session) : Session :=
  mkSession (credit_cards db) (categories db) (merchants db)
            (map (fun r =>
                    CardReward.mk (CardReward.id r) (CardReward.credit_card_id r)
                                  (CardReward.category_id r) (CardReward.merchant_id r)
                                  (CardReward.reward_type r) (CardReward.reward_rate r)
                                  (CardReward.minimum_spend r) (cap r)
                                  (CardReward.is_active r))
                 (card_rewards db))
            (user_cards db) (expenses db).

(** The capped reward a rule offers for an annual amount. *)
Definition candidate (ann : Q) (r : CardReward.t) : Q :=
  applicable r ann * CardReward.reward_rate r.

(** ** Endpoints ([backend/app/api/api_v1/endpoints/recommendations.py])

    [current_user_id] is [current_user.id].  An endpoint raises the
    [HTTPException]s of its own and the exceptions of the calls it makes. *)



(** *** [get_card_recommendations] *)


Module RecommendationResponse.
Record t : Type := mk {
  user_id : Z;
  analysis_period : string;
  current_spending : list (string * Q);
  recommendations : list CardCombination;
  potential_savings : Q;
  generated_at : Z
}.
End RecommendationResponse.


(** *** [get_purchase_advice] *)

Definition get_purchase_advice (db : Session) (merchant_id : Z) (amount : Q)
    (current_user_id : Z) : Advice :=
  get_purchase_recommendation db current_user_id merchant_id amount.

(** *** [get_spending_analysis] *)

Module SpendingRow.
Record t : Type := mk {
  category : string;
  monthly_amount : Q;
  percentage : Q
}.
End SpendingRow.

Inductive SpendingAnalysis : Type :=
| NoSpendingData (message : string) (spending_pattern : list (string * Q))
                 (total_monthly_spending : Q)
| SpendingReport (analysis_period_months : Z) (total_monthly_spending : Q)
                 (spending_breakdown top_categories : list SpendingRow.t).

(** Lines 87-114: the analysis of the profile line 85 returned. *)
Definition analyse_pattern (months : Z) (spending_pattern : list (string * Q))
    : SpendingAnalysis :=
  match spending_pattern with
  | [] => NoSpendingData "No spending data found" [] 0
  | _ :: _ =>
      let total_monthly_spending := Qsum (map snd spending_pattern) in
      let spending_breakdown :=
        map (fun item =>
               SpendingRow.mk (fst item) (snd item)
                 (if Qgtb total_monthly_spending 0
                  then snd item / total_monthly_spending * 100 else 0))
            spending_pattern in
      let spending_breakdown := sort_desc SpendingRow.monthly_amount spending_breakdown in
      SpendingReport months total_monthly_spending spending_breakdown
                     (firstn 5 spending_breakdown)
  end.


(** *** [simulate_card_performance] *)

Module Simulation.
Record t : Type := mk {
  card_id : Z;
  card_name : string;
  card_bank : string;
  card_annual_fee : Q;
  total_annual_spending : Q;
  projected_cashback : Q;
  projected_points : Q;
  annual_fee : Q;
  net_benefit : Q;
  category_breakdown : list (string * Breakdown.t)
}.
End Simulation.

(** Lines 137-165: the simulation of [card] on the profile line 135
    returned. *)
Definition simulate_with_pattern (db : Session) (card : CreditCard.t)
    (spending_pattern : list (string * Q)) : Outcome Simulation.t :=
  match spending_pattern with
  | [] => Raised (HTTP (mkHTTPException 400 "No spending data found for simulation"))
  | _ :: _ =>
      let card_rewards := calculate_card_rewards db card spending_pattern in
      let total_annual_spending :=
        Qsum (map (fun item => snd item * 12) spending_pattern) in
      let net_benefit := total_cashback card_rewards - CreditCard.annual_fee card in
      Returned (Simulation.mk (CreditCard.id card) (CreditCard.name card)
                  (CreditCard.bank card) (CreditCard.annual_fee card)
                  total_annual_spending
                  (total_cashback card_rewards) (total_points card_rewards)
                  (CreditCard.annual_fee card) net_benefit
                  (category_breakdown card_rewards))
  end.

Definition simulate_card_performance (db : Session) (now : Z) (card_id : Z)
    (current_user_id : Z) : Outcome Simulation.t :=
  match find (fun c => Z.eqb (CreditCard.id c) card_id && CreditCard.is_active c)
             (credit_cards db) with
  | None => Raised (HTTP (mkHTTPException 404 "Credit card not found"))
  | Some card =>
      spending_pattern <- get_user_spending_pattern db now current_user_id 3 ;;
      simulate_with_pattern db card spending_pattern
  end.

(** *** [compare_cards] *)

Module Comparison.
Record t : Type := mk {
  card_id : Z;
  card_name : string;
  card_bank : string;
  card_annual_fee : Q;
  projected_cashback : Q;
  projected_points : Q;
  net_benefit : Q;
  rank : Z
}.
End Comparison.

(** [result["rank"] = i + 1] *)
Definition set_rank (i : nat) (result : Comparison.t) : Comparison.t :=
  Comparison.mk (Comparison.card_id result) (Comparison.card_name result)
                (Comparison.card_bank result) (Comparison.card_annual_fee result)
                (Comparison.projected_cashback result)
                (Comparison.projected_points result)
                (Comparison.net_benefit result) (Z.of_nat i + 1).

(** [for i, result in enumerate(results): result["rank"] = i + 1], counting
    from [i]. *)
Fixpoint assign_ranks (i : nat) (results : list Comparison.t) : list Comparison.t :=
  match results with
  | [] => []
  | result :: rest => set_rank i result :: assign_ranks (S i) rest
  end.

(** Lines 195-228: the comparison of [cards] on the profile line 193
    returned. *)
Definition compare_with_pattern (db : Session) (cards : list CreditCard.t)
    (spending_pattern : list (string * Q))
    : Outcome (list Comparison.t * list (string * Q)) :=
  match spending_pattern with
  | [] => Raised (HTTP (mkHTTPException 400 "No spending data found for comparison"))
  | _ :: _ =>
      let comparison_results :=
        map (fun card =>
               let card_rewards :=
                 calculate_card_rewards db card spending_pattern in
               let net_benefit :=
                 total_cashback card_rewards - CreditCard.annual_fee card in
               Comparison.mk (CreditCard.id card) (CreditCard.name card)
                             (CreditCard.bank card) (CreditCard.annual_fee card)
                             (total_cashback card_rewards)
                             (total_points card_rewards)
                             net_benefit 0)
            cards in
      let comparison_results :=
        sort_desc Comparison.net_benefit comparison_results in
      Returned (assign_ranks 0 comparison_results, spending_pattern)
  end.

(** The cards of [db.query(CreditCard).filter(CreditCard.id.in_(card_id_list),
    CreditCard.is_active == True).all()]. *)
Definition cards_in (db : Session) (card_id_list : list Z) : list CreditCard.t :=
  filter (fun c => existsb (Z.eqb (CreditCard.id c)) card_id_list
                   && CreditCard.is_active c)
         (credit_cards db).

(** [card_id_list] is the outcome of parsing the comma-separated [card_ids]:
    [None] when [int] raises [ValueError]. *)
Definition compare_cards (db : Session) (now : Z) (card_id_list : option (list Z))
    (current_user_id : Z)
    : Outcome (list Comparison.t * list (string * Q)) :=
  match card_id_list with
  | None => Raised (HTTP (mkHTTPException 400 "Invalid card IDs format"))
  | Some card_id_list =>
      if Nat.ltb 5 (List.length card_id_list)
      then Raised (HTTP (mkHTTPException 400 "Maximum 5 cards can be compared"))
      else
        let cards := cards_in db card_id_list in
        if negb (Nat.eqb (List.length cards) (List.length card_id_list))
        then Raised (HTTP (mkHTTPException 404 "One or more cards not found"))
        else
          spending_pattern <- get_user_spending_pattern db now current_user_id 3 ;;
          compare_with_pattern db cards spending_pattern
  end.

(** ** Example data *)

Definition petrol_card : CreditCard.t :=
  CreditCard.mk 1 "A" "Bank A" CT_CASHBACK 0 true.

(** One card with one rule: Petrol, 5% cashback, capped at 300 a month. *)
Definition capped_db : Session :=
  mkSession [petrol_card]
            [Category.mk 1 "Petrol"]
            [Merchant.mk 1 "Shell" 1]
            [CardReward.mk 1 1 (Some 1%Z) None CASHBACK (5 # 100) 0 (Some 300) true]
            [UserCard.mk 1 7 1 true]
            [].

(** A card whose Petrol rule pays nothing and whose general rule pays 1%. *)
Definition zero_rate_db : Session :=
  mkSession [petrol_card]
            [Category.mk 1 "Petrol"]
            [Merchant.mk 1 "Shell" 1]
            [CardReward.mk 1 1 (Some 1%Z) None CASHBACK 0 0 None true;
             CardReward.mk 2 1 None None CASHBACK (1 # 100) 0 None true]
            []
            [].

Definition merchant_rule_card : CreditCard.t :=
  CreditCard.mk 1 "M" "Bank M" CT_CASHBACK 0 true.

Definition category_rule_card : CreditCard.t :=
  CreditCard.mk 2 "K" "Bank K" CT_CASHBACK 0 true.

(** User 7 owns card M, with a 1% rule for the merchant Shell, and card K,
    with a 5% rule for Shell's category Petrol. *)
Definition precedence_db : Session :=
  mkSession [merchant_rule_card; category_rule_card]
            [Category.mk 1 "Petrol"]
            [Merchant.mk 1 "Shell" 1]
            [CardReward.mk 1 1 None (Some 1%Z) CASHBACK (1 # 100) 0 None true;
             CardReward.mk 2 2 (Some 1%Z) None CASHBACK (5 # 100) 0 None true]
            [UserCard.mk 1 7 1 true; UserCard.mk 2 7 2 true]
            [].

Definition grocery_card : CreditCard.t :=
  CreditCard.mk 2 "B" "Bank B" CT_CASHBACK 100 true.

(** Two cards and three expenses of user 7 (two at Shell, in September and
    November 2023, one at Tesco in November 2023). *)
Definition household_db : Session :=
  mkSession [petrol_card; grocery_card]
            [Category.mk 1 "Petrol"; Category.mk 2 "Groceries"]
            [Merchant.mk 1 "Shell" 1; Merchant.mk 2 "Tesco" 2]
            [CardReward.mk 1 1 (Some 1%Z) None CASHBACK (5 # 100) 0 (Some 300) true;
             CardReward.mk 2 1 None None CASHBACK (5 # 1000) 0 None true;
             CardReward.mk 3 2 (Some 2%Z) None CASHBACK (5 # 100) 0 (Some 500) true;
             CardReward.mk 4 2 None None POINTS (1 # 100) 0 None true]
            [UserCard.mk 1 7 1 true]
            [Expense.mk 1 7 1 900 1700000000;
             Expense.mk 2 7 2 600 1700000000;
             Expense.mk 3 7 1 600 1696000000].

(** A moment in November 2023, in seconds since the epoch. *)
Definition household_now : Z := 1700000001.

(** [capped_db] with a minimum spend of 50 on its rule. *)
Definition capped_db_minimum_50 : Session :=
  mkSession [petrol_card]
            [Category.mk 1 "Petrol"]
            [Merchant.mk 1 "Shell" 1]
            [CardReward.mk 1 1 (Some 1%Z) None CASHBACK (5 # 100) 50 (Some 300) true]
            [UserCard.mk 1 7 1 true]
            [].

(** A card whose Petrol rule pays 1% cashback and whose general rule pays 5%
    in points. *)
Definition general_higher_db : Session :=
  mkSession [petrol_card]
            [Category.mk 1 "Petrol"]
            [Merchant.mk 1 "Shell" 1]
            [CardReward.mk 1 1 (Some 1%Z) None CASHBACK (1 # 100) 0 None true;
             CardReward.mk 2 1 None None POINTS (5 # 100) 0 None true]
            [UserCard.mk 1 7 1 true]
            [].

(** A card with two Petrol rules: 5% cashback on at most 100 a month, and
    3% in points without cap. *)
Definition two_petrol_rules_db : Session :=
  mkSession [petrol_card]
            [Category.mk 1 "Petrol"]
            [Merchant.mk 1 "Shell" 1]
            [CardReward.mk 1 1 (Some 1%Z) None CASHBACK (5 # 100) 0 (Some 100) true;
             CardReward.mk 2 1 (Some 1%Z) None POINTS (3 # 100) 0 None true]
            [UserCard.mk 1 7 1 true]
            [].


(** The profile of a household: 750 a month on Petrol, 600 on Groceries. *)
Definition household_pattern : list (string * Q) :=
  [("Petrol", 750); ("Groceries", 600)].
(** * Properties *)

(** ** Comparisons *)

Lemma Qgtb_true (x y : Q) : Qgtb x y = true <-> y < x.
Proof.
  unfold Qgtb. rewrite negb_true_iff. split; intro H.
  - apply Qnot_le_lt. intro Hle. apply Qle_bool_iff in Hle. congruence.
  - destruct (Qle_bool x y) eqn:E; [|reflexivity].
    apply Qle_bool_iff in E. exfalso. exact (Qlt_not_le _ _ H E).
Qed.

Lemma Qgtb_false (x y : Q) : Qgtb x y = false <-> x <= y.
Proof.
  unfold Qgtb. rewrite negb_false_iff. apply Qle_bool_iff.
Qed.

Lemma Qgtb_compat (x x' y y' : Q) : x == x' -> y == y' -> Qgtb x y = Qgtb x' y'.
Proof.
  intros Hx Hy. destruct (Qgtb x' y') eqn:E.
  - apply Qgtb_true. apply Qgtb_true in E. rewrite Hx, Hy. exact E.
  - apply Qgtb_false. apply Qgtb_false in E. rewrite Hx, Hy. exact E.
Qed.

Lemma Qeq_bool_compat (x x' y y' : Q) : x == x' -> y == y' -> Qeq_bool x y = Qeq_bool x' y'.
Proof.
  intros Hx Hy. destruct (Qeq_bool x' y') eqn:E.
  - apply Qeq_bool_iff. apply Qeq_bool_iff in E. rewrite Hx, Hy. exact E.
  - destruct (Qeq_bool x y) eqn:E'; [|reflexivity].
    apply Qeq_bool_iff in E'. rewrite Hx, Hy in E'. apply Qeq_bool_iff in E'. congruence.
Qed.

(** ** The reward of one card: caps and precedence *)

(** Whatever the rules, the amount of a breakdown entry is the uncapped
    annual amount times the chosen rate. *)
Lemma category_entry_amount (db : Session) (rewards : list CardReward.t)
    (cat : string) (monthly_amount : Q) :
  Breakdown.amount (category_entry db rewards cat monthly_amount)
  = monthly_amount * 12 * Breakdown.rate (category_entry db rewards cat monthly_amount).
Proof. reflexivity. Qed.

(** C1: with a monthly spend of 500 on Petrol and the rule capped at 300 a
    month, [calculate_card_rewards] pays 500*12*5% = 300, not
    min(500*12, 300*12)*5% = 180; [_calculate_combination_rewards] on the
    same card and profile pays the capped 180. *)
Theorem calculate_card_rewards_ignores_cap :
  let r := calculate_card_rewards capped_db petrol_card [("Petrol", 500)] in
  (exists e, category_breakdown r = [("Petrol", e)]
             /\ Breakdown.rate e == 5 # 100
             /\ Breakdown.amount e == 300
             /\ ~ Breakdown.amount e == py_min (500 * 12) (300 * 12) * (5 # 100))
  /\ total_cashback r == 300
  /\ py_min (500 * 12) (300 * 12) * (5 # 100) == 180
  /\ Combination.total_cashback
       (_calculate_combination_rewards capped_db [petrol_card] [("Petrol", 500)]) == 180.
Proof.
  cbv zeta. split; [|split; [|split]].
  - eexists. split; [reflexivity|]. repeat split; try reflexivity.
    intro H. vm_compute in H. discriminate H.
  - reflexivity.
  - reflexivity.
  - reflexivity.
Qed.

(** ** Loops that keep the strictly largest candidate *)

Section KeepLargest.

Variables X S : Type.
Variable val : S -> Q.
Variable cand : X -> Q.
Variable mk : X -> S.
Variable p : X -> bool.
Variable step : S -> X -> S.

Hypothesis val_mk : forall x, val (mk x) = cand x.
Hypothesis step_spec : forall st x,
  step st x = if p x && Qgtb (cand x) (val st) then mk x else st.

Lemma keep_largest_mono (l : list X) (st0 : S) :
  val st0 <= val (fold_left step l st0).
Proof.
  revert st0. induction l as [|x l IH]; intro st0; simpl.
  - apply Qle_refl.
  - eapply Qle_trans; [|apply IH]. rewrite step_spec.
    destruct (p x); simpl; [|apply Qle_refl].
    destruct (Qgtb (cand x) (val st0)) eqn:E; [|apply Qle_refl].
    rewrite val_mk. apply Qlt_le_weak. apply Qgtb_true. exact E.
Qed.

Lemma keep_largest_upper (l : list X) (st0 : S) (x : X) :
  In x l -> p x = true -> cand x <= val (fold_left step l st0).
Proof.
  revert st0. induction l as [|y l IH]; intros st0 Hin Hp; simpl in *.
  - contradiction.
  - destruct Hin as [->|Hin]; [|apply IH; assumption].
    eapply Qle_trans; [|apply keep_largest_mono].
    rewrite step_spec, Hp. simpl.
    destruct (Qgtb (cand x) (val st0)) eqn:E.
    + rewrite val_mk. apply Qle_refl.
    + apply Qgtb_false. exact E.
Qed.

Lemma keep_largest_origin (l : list X) (st0 : S) :
  fold_left step l st0 = st0
  \/ exists x, In x l /\ p x = true /\ fold_left step l st0 = mk x
               /\ val st0 < cand x.
Proof.
  revert st0. induction l as [|y l IH]; intro st0; simpl.
  - left. reflexivity.
  - destruct (IH (step st0 y)) as [Heq|(x & Hin & Hp & Heq & Hlt)].
    + rewrite Heq, step_spec.
      destruct (p y) eqn:Hp; simpl; [|left; reflexivity].
      destruct (Qgtb (cand y) (val st0)) eqn:E; [|left; reflexivity].
      right. exists y. repeat split; auto. apply Qgtb_true. exact E.
    + right. exists x. repeat split; auto.
      eapply Qle_lt_trans; [|exact Hlt].
      change (step st0 y) with (fold_left step [y] st0).
      apply keep_largest_mono.
Qed.

Lemma keep_largest_unchanged (l : list X) (st0 : S) :
  (forall x, In x l -> p x = true -> cand x <= val st0) ->
  fold_left step l st0 = st0.
Proof.
  revert st0. induction l as [|y l IH]; intros st0 H; simpl.
  - reflexivity.
  - assert (Hy : step st0 y = st0).
    { rewrite step_spec. destruct (p y) eqn:Hp; simpl; [|reflexivity].
      assert (E : Qgtb (cand y) (val st0) = false).
      { apply Qgtb_false. apply H; [left; reflexivity|exact Hp]. }
      rewrite E. reflexivity. }
    rewrite Hy. apply IH. intros x Hin Hp. apply H; [right; exact Hin|exact Hp].
Qed.

End KeepLargest.

Lemma fold_left_nested {C R S : Type} (f : C -> S -> R -> S) (rules : C -> list R)
    (cs : list C) (st0 : S) :
  fold_left (fun st c => fold_left (f c) (rules c) st) cs st0
  = fold_left (fun st cr => f (fst cr) st (snd cr)) (card_rules rules cs) st0.
Proof.
  revert st0. induction cs as [|c cs IH]; intro st0; simpl.
  - reflexivity.
  - rewrite IH. unfold card_rules at 2. simpl. rewrite fold_left_app. f_equal.
    generalize st0. induction (rules c) as [|r rs IHr]; intro st; simpl.
    + reflexivity.
    + apply IHr.
Qed.

Lemma in_card_rules {C R : Type} (rules : C -> list R) (cs : list C) (c : C) (r : R) :
  In (c, r) (card_rules rules cs) <-> In c cs /\ In r (rules c).
Proof.
  unfold card_rules. rewrite in_flat_map. split.
  - intros (c' & Hc & Hin). apply in_map_iff in Hin. destruct Hin as (r' & Heq & Hr).
    inversion Heq; subst. auto.
  - intros [Hc Hr]. exists c. split; [exact Hc|]. apply in_map. exact Hr.
Qed.

Lemma fold_left_filter {A S : Type} (f : S -> A -> S) (q : A -> bool) (l : list A) (st0 : S) :
  fold_left f (filter q l) st0 = fold_left (fun st x => if q x then f st x else st) l st0.
Proof.
  revert st0. induction l as [|x l IH]; intro st0; simpl.
  - reflexivity.
  - destruct (q x); simpl; apply IH.
Qed.

Lemma fold_left_pointwise {A S : Type} (f g : S -> A -> S) (l : list A) (st0 : S) :
  (forall st x, In x l -> f st x = g st x) ->
  fold_left f l st0 = fold_left g l st0.
Proof.
  revert st0. induction l as [|x l IH]; intros st0 H; simpl.
  - reflexivity.
  - rewrite H by (left; reflexivity). apply IH.
    intros st y Hy. apply H. right. exact Hy.
Qed.

(** ** Category precedence in [calculate_card_rewards] *)

Lemma rate_step_category_spec (db : Session) (cat : string) (a : Q)
    (st : Q * string) (r : CardReward.t) :
  rate_step_category db cat a st r
  = if category_is db r cat && Qgtb (CardReward.reward_rate r) (fst st)
    then (CardReward.reward_rate r, value (CardReward.reward_type r)) else st.
Proof.
  unfold rate_step_category. destruct (category_is db r cat); reflexivity.
Qed.

Lemma rate_step_general_spec (db : Session) (a : Q)
    (st : Q * string) (r : CardReward.t) :
  rate_step_general db a st r
  = if is_None (category db r) && Qgtb (CardReward.reward_rate r) (fst st)
    then (CardReward.reward_rate r, value (CardReward.reward_type r)) else st.
Proof.
  unfold rate_step_general. destruct (is_None (category db r)); reflexivity.
Qed.

(** C8, as stated, fails: the card has a Petrol rule (rate 0) and a general
    rule (rate 1%), and the Petrol entry is computed with the general 1%. *)
Lemma category_precedence_counterexample :
  let r := calculate_card_rewards zero_rate_db petrol_card [("Petrol", 100)] in
  (exists e, category_breakdown r = [("Petrol", e)]
             /\ Breakdown.rate e == 1 # 100
             /\ ~ Breakdown.rate e == 0)
  /\ total_cashback r == 12.
Proof.
  cbv zeta. split; [|reflexivity].
  eexists. split; [reflexivity|]. split; [reflexivity|].
  intro H. vm_compute in H. discriminate H.
Qed.

Lemma in_dict_set {V : Type} (k : string) (v : V) (d : list (string * V))
    (kv : string * V) :
  In kv (dict_set k v d) -> kv = (k, v) \/ In kv d.
Proof.
  induction d as [|[k0 v0] d IH]; simpl.
  - intros [H|[]]. left. symmetry. exact H.
  - destruct (String.eqb k0 k); simpl.
    + intros [H|H]; [left; symmetry; exact H|right; right; exact H].
    + intros [H|H]; [right; left; exact H|].
      destruct (IH H) as [H'|H']; [left; exact H'|right; right; exact H'].
Qed.

(** Every entry of the breakdown is the entry computed for an item of the
    profile. *)
Lemma in_category_breakdown (db : Session) (rewards : list CardReward.t)
    (P : list (string * Q)) (acc : Rewards) (cat : string) (e : Breakdown.t) :
  In (cat, e) (category_breakdown (fold_left (rewards_step db rewards) P acc)) ->
  In (cat, e) (category_breakdown acc)
  \/ exists a, In (cat, a) P /\ e = category_entry db rewards cat a.
Proof.
  revert acc. induction P as [|[k a] P IH]; intros acc H; simpl in H.
  - left. exact H.
  - destruct (IH _ H) as [Hacc|(a' & Hin & He)].
    + unfold rewards_step in Hacc. cbn [fst snd] in Hacc.
      assert (Hd : In (cat, e) (dict_set k (category_entry db rewards k a)
                                         (category_breakdown acc))).
      { destruct (String.eqb (Breakdown.type (category_entry db rewards k a)) "cashback");
          exact Hacc. }
      apply in_dict_set in Hd. destruct Hd as [Hd|Hd]; [|left; exact Hd].
      inversion Hd; subst. right. exists a. split; [left; reflexivity|reflexivity].
    + right. exists a'. split; [right; exact Hin|exact He].
Qed.

(** C8, amended: take an entry of the breakdown, for a category of the
    profile.  When some active rule of the card for that category has a
    strictly positive rate, the rate and the kind of the entry are those of
    an active rule for that category and no rule for the category has a
    higher rate, whatever the rules without category offer.  When no rule
    for the category has a positive rate, the rules without category are
    consulted: the rate of the entry is at least the rate of each of them,
    and it is the rate of one of them, with its kind, or it is 0 (as
    cashback) when none has a positive rate.  In both cases the amount of
    the entry is the monthly amount of an item of the profile times 12
    times the rate. *)
Theorem category_rate_precedence (db : Session) (card : CreditCard.t)
    (spending_pattern : list (string * Q)) (cat : string) (e : Breakdown.t) :
  In (cat, e) (category_breakdown (calculate_card_rewards db card spending_pattern)) ->
  (exists a, In (cat, a) spending_pattern
             /\ Breakdown.amount e = a * 12 * Breakdown.rate e)
  /\ ((exists r, In r (active_rewards db card) /\ category_is db r cat = true
                 /\ 0 < CardReward.reward_rate r) ->
      (exists r, In r (active_rewards db card) /\ category_is db r cat = true
                 /\ Breakdown.rate e = CardReward.reward_rate r
                 /\ Breakdown.type e = value (CardReward.reward_type r))
      /\ (forall r, In r (active_rewards db card) -> category_is db r cat = true ->
                    CardReward.reward_rate r <= Breakdown.rate e))
  /\ ((forall r, In r (active_rewards db card) -> category_is db r cat = true ->
                 CardReward.reward_rate r <= 0) ->
      (forall r, In r (active_rewards db card) -> category db r = None ->
                 CardReward.reward_rate r <= Breakdown.rate e)
      /\ ((Breakdown.rate e = 0 /\ Breakdown.type e = "cashback")
          \/ exists r, In r (active_rewards db card) /\ category db r = None
                       /\ 0 < CardReward.reward_rate r
                       /\ Breakdown.rate e = CardReward.reward_rate r
                       /\ Breakdown.type e = value (CardReward.reward_type r))).
Proof.
  intro Hin. unfold calculate_card_rewards in Hin.
  apply in_category_breakdown in Hin. destruct Hin as [[]|(a & Hin & ->)].
  set (rewards := active_rewards db card).
  split; [exists a; split; [exact Hin|reflexivity]|].
  unfold category_entry. cbv zeta. cbn [Breakdown.rate Breakdown.type].
  set (st := fold_left (rate_step_category db cat (a * 12)) rewards (0, "cashback")).
  assert (Hup : forall r, In r rewards -> category_is db r cat = true ->
                          CardReward.reward_rate r <= fst st).
  { intros r Hr Hc.
    apply (keep_largest_upper _ _ fst CardReward.reward_rate
             (fun r => (CardReward.reward_rate r, value (CardReward.reward_type r)))
             (fun r => category_is db r cat) (rate_step_category db cat (a * 12)));
      auto using rate_step_category_spec. }
  split.
  - intros (r0 & Hin0 & Hc0 & Hpos).
    assert (Hst : 0 < fst st).
    { eapply Qlt_le_trans; [exact Hpos|]. apply Hup; assumption. }
    assert (Hne : Qeq_bool (fst st) 0 = false).
    { destruct (Qeq_bool (fst st) 0) eqn:E; [|reflexivity].
      apply Qeq_bool_iff in E. rewrite E in Hst. exfalso. exact (Qlt_irrefl _ Hst). }
    assert (Hbest : best_rate db rewards cat (a * 12) = st).
    { unfold best_rate. fold st. rewrite Hne. reflexivity. }
    rewrite Hbest. split; [|exact Hup].
    destruct (keep_largest_origin _ _ fst CardReward.reward_rate
                (fun r => (CardReward.reward_rate r, value (CardReward.reward_type r)))
                (fun r => category_is db r cat) (rate_step_category db cat (a * 12))
                (fun _ => eq_refl) (rate_step_category_spec db cat (a * 12))
                rewards (0, "cashback")) as [Heq|(r & Hr & Hc & Heq & _)].
    + fold st in Heq. rewrite Heq in Hst. simpl in Hst.
      exfalso. exact (Qlt_irrefl _ Hst).
    + fold st in Heq. exists r. rewrite Heq. auto.
  - intro Hnone.
    assert (Hst : st = (0, "cashback")).
    { apply (keep_largest_unchanged _ _ fst CardReward.reward_rate
               (fun r => (CardReward.reward_rate r, value (CardReward.reward_type r)))
               (fun r => category_is db r cat) (rate_step_category db cat (a * 12))
               (rate_step_category_spec db cat (a * 12))).
      exact Hnone. }
    assert (Hbest : best_rate db rewards cat (a * 12)
                    = fold_left (rate_step_general db (a * 12)) rewards (0, "cashback")).
    { unfold best_rate. fold st. rewrite Hst. reflexivity. }
    rewrite Hbest. split.
    + intros r Hr Hc.
      apply (keep_largest_upper _ _ fst CardReward.reward_rate
               (fun r => (CardReward.reward_rate r, value (CardReward.reward_type r)))
               (fun r => is_None (category db r)) (rate_step_general db (a * 12)));
        auto using rate_step_general_spec.
      rewrite Hc. reflexivity.
    + destruct (keep_largest_origin _ _ fst CardReward.reward_rate
                  (fun r => (CardReward.reward_rate r, value (CardReward.reward_type r)))
                  (fun r => is_None (category db r)) (rate_step_general db (a * 12))
                  (fun _ => eq_refl) (rate_step_general_spec db (a * 12))
                  rewards (0, "cashback")) as [Heq|(r & Hr & Hc & Heq & Hlt)].
      * left. rewrite Heq. split; reflexivity.
      * right. exists r. rewrite Heq. simpl in Hlt.
        destruct (category db r); [discriminate|]. auto.
Qed.

Lemma category_rate_precedence_witness :
  In (CardReward.mk 2 1 None None POINTS (5 # 100) 0 None true)
     (active_rewards general_higher_db petrol_card)
  /\ exists e,
       In ("Petrol", e)
          (category_breakdown
             (calculate_card_rewards general_higher_db petrol_card [("Petrol", 100)]))
       /\ Breakdown.rate e = 1 # 100
       /\ Breakdown.type e = "cashback"
       /\ Breakdown.amount e == 12.
Proof.
  split; [right; left; reflexivity|].
  eexists. split; [left; reflexivity|].
  destruct (category_rate_precedence general_higher_db petrol_card [("Petrol", 100)]
              "Petrol" _ (or_introl eq_refl)) as (_ & H & _).
  destruct H as [(r & Hr & Hc & Hrate & Hty) _].
  - exists (CardReward.mk 1 1 (Some 1%Z) None CASHBACK (1 # 100) 0 None true).
    split; [left; reflexivity|]. split; reflexivity.
  - destruct Hr as [<-|[<-|[]]]; [|discriminate Hc].
    split; [exact Hrate|]. split; [exact Hty|reflexivity].
Defined.

(** ** The purchase advisor *)

Lemma purchase_reward_amount_applies (merchant : Merchant.t) (merchant_id : Z)
    (amount : Q) (r : CardReward.t) :
  purchase_reward_amount merchant merchant_id amount r
  = if rule_applies merchant merchant_id r
    then amount * CardReward.reward_rate r else 0.
Proof.
  unfold purchase_reward_amount, rule_applies.
  destruct (opt_Z_eqb (CardReward.category_id r) (Merchant.category_id merchant));
    [reflexivity|].
  destruct (opt_Z_eqb (CardReward.merchant_id r) merchant_id); [reflexivity|].
  reflexivity.
Qed.

Section PurchaseScan.

Variable db : Session.
Variable merchant : Merchant.t.
Variable merchant_id : Z.
Variable amount : Q.

Let cand (cr : CreditCard.t * CardReward.t) : Q :=
  purchase_reward_amount merchant merchant_id amount (snd cr).

Let mk (cr : CreditCard.t * CardReward.t) : option CreditCard.t * Q * string :=
  (Some (fst cr), cand cr, value (CardReward.reward_type (snd cr))).

Let step (st : option CreditCard.t * Q * string) (cr : CreditCard.t * CardReward.t) :=
  purchase_step merchant merchant_id amount (fst cr) st (snd cr).

Lemma purchase_scan_flat (owned : list CreditCard.t) :
  purchase_scan db merchant merchant_id amount owned
  = fold_left step (card_rules (active_rewards db) owned) (None, 0, "cashback").
Proof.
  unfold purchase_scan.
  exact (fold_left_nested (purchase_step merchant merchant_id amount)
                          (active_rewards db) owned (None, 0, "cashback")).
Qed.

Lemma purchase_scan_upper (owned : list CreditCard.t) (card : CreditCard.t)
    (r : CardReward.t) :
  In card owned -> In r (active_rewards db card) ->
  purchase_reward_amount merchant merchant_id amount r
  <= snd (fst (purchase_scan db merchant merchant_id amount owned)).
Proof.
  intros Hc Hr. rewrite purchase_scan_flat.
  apply (keep_largest_upper _ _ (fun st => snd (fst st)) cand mk (fun _ => true) step
           (fun _ => eq_refl) (fun _ _ => eq_refl)
           (card_rules (active_rewards db) owned) (None, 0, "cashback") (card, r)).
  - apply in_card_rules. split; assumption.
  - reflexivity.
Qed.

Lemma purchase_scan_origin (owned : list CreditCard.t) :
  purchase_scan db merchant merchant_id amount owned = (None, 0, "cashback")
  \/ exists card r,
       In card owned /\ In r (active_rewards db card)
       /\ purchase_scan db merchant merchant_id amount owned
          = (Some card, purchase_reward_amount merchant merchant_id amount r,
             value (CardReward.reward_type r))
       /\ 0 < purchase_reward_amount merchant merchant_id amount r.
Proof.
  rewrite purchase_scan_flat.
  destruct (keep_largest_origin _ _ (fun st => snd (fst st)) cand mk (fun _ => true) step
              (fun _ => eq_refl) (fun _ _ => eq_refl)
              (card_rules (active_rewards db) owned) (None, 0, "cashback"))
    as [Heq|([card r] & Hin & _ & Heq & Hlt)].
  - left. exact Heq.
  - right. exists card, r. apply in_card_rules in Hin. destruct Hin as [Hc Hr].
    repeat split; assumption.
Qed.

End PurchaseScan.

(** C2, as stated, fails: on the spec's own example (a 1% rule for the
    merchant on card M, a 5% rule for the merchant's category on card K, a
    purchase of 100) the advisor recommends K with reward 5, and does not
    recommend the card that holds the merchant rule. *)
Lemma purchase_precedence_counterexample :
  (exists r, get_purchase_recommendation precedence_db 7 1 100
             = Recommended 2 "K" "Bank K" r "cashback" "Shell" "Petrol"
             /\ r == 5 /\ ~ r == 1)
  /\ (forall name bank r ty m c,
        get_purchase_recommendation precedence_db 7 1 100
        <> Recommended 1 name bank r ty m c).
Proof.
  split.
  - eexists. split; [reflexivity|]. split; [reflexivity|].
    intro H. vm_compute in H. discriminate H.
  - intros name bank r ty m c H. vm_compute in H. discriminate H.
Qed.

(** C2, amended: the advisor ranks no scope above another.  A recommendation
    names an owned active card and one of its active rules that applies to
    the purchase (by category, by merchant, or as a general rule); the
    reward is the amount times that rule's rate, it is strictly positive,
    and no applicable rule of any owned active card pays more. *)
Theorem purchase_recommendation_highest_reward (db : Session) (user_id merchant_id : Z)
    (amount : Q) (id : Z) (name bank : string) (r : Q) (ty mname cname : string) :
  get_purchase_recommendation db user_id merchant_id amount
  = Recommended id name bank r ty mname cname ->
  exists merchant card rule,
    find (fun m => Z.eqb (Merchant.id m) merchant_id) (merchants db) = Some merchant
    /\ In card (owned_active_cards db user_id)
    /\ In rule (active_rewards db card)
    /\ id = CreditCard.id card
    /\ rule_applies merchant merchant_id rule = true
    /\ r = amount * CardReward.reward_rate rule
    /\ ty = value (CardReward.reward_type rule)
    /\ 0 < r
    /\ (forall card' rule',
          In card' (owned_active_cards db user_id) ->
          In rule' (active_rewards db card') ->
          rule_applies merchant merchant_id rule' = true ->
          amount * CardReward.reward_rate rule' <= r).
Proof.
  unfold get_purchase_recommendation.
  destruct (owned_active_cards db user_id) as [|c0 owned0] eqn:Howned; [discriminate|].
  destruct (find (fun m => Z.eqb (Merchant.id m) merchant_id) (merchants db))
    as [merchant|]; [|discriminate].
  pose proof (purchase_scan_upper db merchant merchant_id amount (c0 :: owned0)) as Hup.
  destruct (purchase_scan_origin db merchant merchant_id amount (c0 :: owned0))
    as [Heq|(card & rule & Hc & Hr & Heq & Hpos)].
  - rewrite Heq. discriminate.
  - rewrite Heq in Hup |- *. simpl in Hup.
    destruct (find (fun c => Z.eqb (Category.id c) (Merchant.category_id merchant))
                   (categories db)); [|discriminate].
    intro H. inversion H; subst. clear H.
    assert (Happ : rule_applies merchant merchant_id rule = true).
    { rewrite purchase_reward_amount_applies in Hpos.
      destruct (rule_applies merchant merchant_id rule); [reflexivity|].
      exfalso. exact (Qlt_irrefl _ Hpos). }
    assert (Hamt : purchase_reward_amount merchant merchant_id amount rule
                   = amount * CardReward.reward_rate rule).
    { rewrite purchase_reward_amount_applies, Happ. reflexivity. }
    exists merchant, card, rule. rewrite Hamt in *.
    repeat split; auto.
    intros card' rule' Hc' Hr' Happ'.
    specialize (Hup card' rule' Hc' Hr').
    rewrite purchase_reward_amount_applies, Happ' in Hup. exact Hup.
Qed.

Lemma purchase_recommendation_highest_reward_witness :
  exists merchant card rule,
    find (fun m => Z.eqb (Merchant.id m) 1) (merchants precedence_db) = Some merchant
    /\ In card (owned_active_cards precedence_db 7)
    /\ In rule (active_rewards precedence_db card)
    /\ 2%Z = CreditCard.id card
    /\ rule_applies merchant 1 rule = true
    /\ 100 * (5 # 100) = 100 * CardReward.reward_rate rule
    /\ "cashback" = value (CardReward.reward_type rule)
    /\ 0 < 100 * (5 # 100)
    /\ (forall card' rule',
          In card' (owned_active_cards precedence_db 7) ->
          In rule' (active_rewards precedence_db card') ->
          rule_applies merchant 1 rule' = true ->
          100 * CardReward.reward_rate rule' <= 100 * (5 # 100)).
Proof.
  apply (purchase_recommendation_highest_reward precedence_db 7 1 100 2
           "K" "Bank K" (100 * (5 # 100)) "cashback" "Shell" "Petrol").
  reflexivity.
Defined.




(** ** The combination optimizer *)

Lemma combinations_map {A B : Type} (f : A -> B) (l : list A) (r : nat) :
  map (map f) (combinations l r) = combinations (map f l) r.
Proof.
  revert r. induction l as [|x xs IH]; intro r; destruct r as [|r']; simpl; auto.
  rewrite map_app, map_map, <- IH, <- IH, map_map. reflexivity.
Qed.

Lemma combinations_spec {A : Type} (l : list A) (r : nat) (c : list A) :
  In c (combinations l r) ->
  List.length c = r /\ incl c l /\ (NoDup l -> NoDup c).
Proof.
  revert r c. induction l as [|x xs IH]; intros r c Hin.
  - destruct r; simpl in Hin; [|contradiction].
    destruct Hin as [<-|[]]. repeat split; auto. intros y [].
  - destruct r as [|r']; simpl in Hin.
    + destruct Hin as [<-|[]]. repeat split; auto.
      * intros y [].
      * intros _. constructor.
    + apply in_app_or in Hin. destruct Hin as [Hin|Hin].
      * apply in_map_iff in Hin. destruct Hin as (c' & <- & Hc').
        destruct (IH _ _ Hc') as (Hlen & Hincl & Hnd).
        split; [simpl; congruence|]. split.
        -- intros y [<-|Hy]; [left; reflexivity|right; apply Hincl; exact Hy].
        -- intro H. inversion H as [|? ? Hnotin Hxs]; subst.
           constructor; [|apply Hnd; exact Hxs].
           intro Hx. apply Hnotin. apply Hincl. exact Hx.
      * destruct (IH _ _ Hin) as (Hlen & Hincl & Hnd).
        split; [exact Hlen|]. split.
        -- intros y Hy. right. apply Hincl. exact Hy.
        -- intro H. inversion H; subst. apply Hnd. assumption.
Qed.

(** The active catalog inherits the uniqueness of card ids. *)
Lemma available_cards_ids_distinct (db : Session) :
  NoDup (map CreditCard.id (credit_cards db)) ->
  NoDup (map CreditCard.id (available_cards db)).
Proof.
  unfold available_cards.
  induction (credit_cards db) as [|card rest IH]; simpl; intro Hpk.
  - constructor.
  - apply NoDup_cons_iff in Hpk. destruct Hpk as [Hfresh Hrest].
    destruct (CreditCard.is_active card); simpl; [|exact (IH Hrest)].
    apply NoDup_cons_iff. split; [|exact (IH Hrest)].
    intro Hin. apply Hfresh. apply in_map_iff in Hin.
    destruct Hin as (other & Hid & Hother). apply filter_In in Hother.
    rewrite <- Hid. apply in_map. exact (proj1 Hother).
Qed.

Lemma in_py_range (start stop n : Z) :
  In n (py_range start stop) -> (start <= n < stop)%Z.
Proof.
  unfold py_range. intro H. apply in_map_iff in H.
  destruct H as (i & <- & Hi). apply in_seq in Hi. lia.
Qed.

Lemma py_range_empty (start stop : Z) : (stop <= start)%Z -> py_range start stop = [].
Proof.
  intro H. unfold py_range.
  replace (Z.to_nat (stop - start)) with O by lia. reflexivity.
Qed.

(** *** The descending stable sort *)

Section SortDesc.

Variable A : Type.
Variable key : A -> Q.

Definition desc (a b : A) : Prop := key b <= key a.

Lemma insert_desc_perm (x : A) (l : list A) :
  Permutation (insert_desc key x l) (x :: l).
Proof.
  induction l as [|y l IH]; simpl.
  - apply Permutation_refl.
  - destruct (Qltb (key x) (key y)).
    + eapply Permutation_trans; [apply perm_skip; exact IH|apply perm_swap].
    + apply Permutation_refl.
Qed.

Lemma sort_desc_perm (l : list A) : Permutation (sort_desc key l) l.
Proof.
  induction l as [|x l IH]; simpl.
  - apply Permutation_refl.
  - eapply Permutation_trans; [apply insert_desc_perm|].
    apply perm_skip. exact IH.
Qed.

Lemma insert_desc_sorted (x : A) (l : list A) :
  StronglySorted desc l -> StronglySorted desc (insert_desc key x l).
Proof.
  induction l as [|y l IH]; simpl; intro H.
  - constructor; constructor.
  - inversion H as [|? ? Hl Hy]; subst.
    destruct (Qltb (key x) (key y)) eqn:E.
    + constructor; [apply IH; exact Hl|].
      apply (Permutation_Forall (Permutation_sym (insert_desc_perm x l))).
      constructor; [|exact Hy].
      unfold desc. apply Qlt_le_weak. apply Qgtb_true. exact E.
    + assert (Hxy : key y <= key x) by (apply Qgtb_false; exact E).
      constructor; [exact H|].
      constructor; [exact Hxy|].
      eapply Forall_impl; [|exact Hy].
      intros z Hz. unfold desc in *. eapply Qle_trans; eassumption.
Qed.

Lemma sort_desc_sorted (l : list A) : StronglySorted desc (sort_desc key l).
Proof.
  induction l as [|x l IH]; simpl.
  - constructor.
  - apply insert_desc_sorted. exact IH.
Qed.

Lemma firstn_sorted (n : nat) (l : list A) :
  StronglySorted desc l -> StronglySorted desc (firstn n l).
Proof.
  revert l. induction n as [|n IH]; intros l H; simpl; [constructor|].
  destruct l as [|x l]; [constructor|].
  inversion H as [|? ? Hl Hx]; subst.
  constructor; [apply IH; exact Hl|].
  apply Forall_forall. intros y Hy.
  rewrite Forall_forall in Hx. apply Hx.
  rewrite <- (firstn_skipn n l). apply in_or_app. left. exact Hy.
Qed.

Lemma in_firstn_sort_desc (n : nat) (l : list A) (x : A) :
  In x (firstn n (sort_desc key l)) -> In x l.
Proof.
  intro H. apply (Permutation_in x (sort_desc_perm l)).
  rewrite <- (firstn_skipn n (sort_desc key l)). apply in_or_app. left. exact H.
Qed.

End SortDesc.

(** Every combination of the result is the score of a subset of the active
    catalog, of a size between 1 and [max_cards]. *)
Lemma optimize_elements (db : Session) (spending_pattern : list (string * Q))
    (max_cards : Z) (c : CardCombination) :
  In c (optimize_with_pattern db spending_pattern max_cards) ->
  exists subset n,
    (1 <= n <= max_cards)%Z
    /\ In subset (combinations (available_cards db) (Z.to_nat n))
    /\ c = score_combination db spending_pattern subset.
Proof.
  unfold optimize_with_pattern.
  destruct spending_pattern as [|item items]; [intros []|].
  intro H. apply in_firstn_sort_desc in H. apply in_flat_map in H.
  destruct H as (n & Hn & Hc). apply in_py_range in Hn.
  apply in_map_iff in Hc. destruct Hc as (subset & <- & Hs).
  exists subset, n. split; [lia|]. split; [exact Hs|reflexivity].
Qed.

(** C4: for every profile, the search of lines 103-146 (whatever
    [max_cards] is, in particular when it is at least 1, and provided card
    ids are unique in the catalog, as the primary key makes them) yields at
    most 5 combinations, in non-increasing order of net benefit, each
    holding between 1 and [max_cards] cards of the active catalog, no card
    twice. *)
Theorem optimize_output_invariants (db : Session)
    (spending_pattern : list (string * Q)) (max_cards : Z) :
  (1 <= max_cards)%Z ->
  NoDup (map CreditCard.id (credit_cards db)) ->
  let res := optimize_with_pattern db spending_pattern max_cards in
  (List.length res <= 5)%nat
  /\ StronglySorted (fun a b => net_benefit b <= net_benefit a) res
  /\ Forall (fun c => NoDup (map CreditCard.id (cards c))
                      /\ (1 <= Z.of_nat (List.length (cards c)) <= max_cards)%Z
                      /\ incl (cards c) (available_cards db)) res.
Proof.
  intros _ Hpk res. split; [|split].
  - unfold res, optimize_with_pattern.
    destruct spending_pattern; [simpl; lia|].
    apply firstn_le_length.
  - unfold res, optimize_with_pattern.
    destruct spending_pattern; [constructor|].
    apply (firstn_sorted _ net_benefit). apply sort_desc_sorted.
  - apply Forall_forall. intros c Hc.
    destruct (optimize_elements _ _ _ _ Hc) as (subset & n & Hn & Hs & ->).
    simpl. destruct (combinations_spec _ _ _ Hs) as (Hlen & Hincl & _).
    split; [|split; [lia|exact Hincl]].
    assert (Hm : In (map CreditCard.id subset)
                    (combinations (map CreditCard.id (available_cards db)) (Z.to_nat n))).
    { rewrite <- combinations_map. apply in_map. exact Hs. }
    apply (combinations_spec _ _ _ Hm).
    apply available_cards_ids_distinct. exact Hpk.
Qed.

Lemma optimize_output_invariants_witness :
  let res := optimize_with_pattern household_db household_pattern 3 in
  (List.length res <= 5)%nat
  /\ StronglySorted (fun a b => net_benefit b <= net_benefit a) res
  /\ Forall (fun c => NoDup (map CreditCard.id (cards c))
                      /\ (1 <= Z.of_nat (List.length (cards c)) <= 3)%Z
                      /\ incl (cards c) (available_cards household_db)) res.
Proof.
  apply (optimize_output_invariants household_db household_pattern 3).
  - discriminate.
  - simpl. constructor.
    + intros [H|[]]. discriminate H.
    + constructor; [intros []|constructor].
Defined.

(** C5: the net benefit of a scored subset is its cashback, plus its points
    valued at 0.01 each, minus the sum of the annual fees of its cards; and
    every combination the search of [optimize_card_combination] yields, on
    any profile, is such a score. *)
Theorem net_benefit_formula (db : Session) :
  (forall spending_pattern subset,
     let rewards := _calculate_combination_rewards db subset spending_pattern in
     net_benefit (score_combination db spending_pattern subset)
     == Combination.total_cashback rewards
        + Combination.total_points rewards * (1 # 100)
        - Qsum (map CreditCard.annual_fee subset))
  /\ (forall spending_pattern max_cards c,
        In c (optimize_with_pattern db spending_pattern max_cards) ->
        let rewards := _calculate_combination_rewards db (cards c) spending_pattern in
        projected_cashback c = Combination.total_cashback rewards
        /\ projected_points c = Combination.total_points rewards
        /\ total_annual_fee c = Qsum (map CreditCard.annual_fee (cards c))
        /\ net_benefit c
           == projected_cashback c + projected_points c * (1 # 100) - total_annual_fee c)
.
Proof.
  assert (Hsearch : forall spending_pattern max_cards c,
        In c (optimize_with_pattern db spending_pattern max_cards) ->
        let rewards := _calculate_combination_rewards db (cards c) spending_pattern in
        projected_cashback c = Combination.total_cashback rewards
        /\ projected_points c = Combination.total_points rewards
        /\ total_annual_fee c = Qsum (map CreditCard.annual_fee (cards c))
        /\ net_benefit c
           == projected_cashback c + projected_points c * (1 # 100) - total_annual_fee c).
  { intros spending_pattern max_cards c Hc rewards.
    destruct (optimize_elements _ _ _ _ Hc) as (subset & n & _ & _ & Heq).
    unfold rewards. rewrite Heq. unfold score_combination. simpl.
    repeat split; try reflexivity. ring. }
  split.
  - intros spending_pattern subset rewards. unfold score_combination. simpl.
    fold rewards. ring.
  - exact Hsearch.
Qed.

Lemma net_benefit_formula_witness :
  let c := score_combination household_db household_pattern
             [petrol_card; grocery_card] in
  In c (optimize_with_pattern household_db household_pattern 3)
  /\ net_benefit c
     == projected_cashback c + projected_points c * (1 # 100) - total_annual_fee c.
Proof.
  cbv zeta.
  assert (Hin : In (score_combination household_db household_pattern
                      [petrol_card; grocery_card])
                   (optimize_with_pattern household_db household_pattern 3)).
  { vm_compute. left. reflexivity. }
  split; [exact Hin|].
  destruct (net_benefit_formula household_db) as [_ H].
  apply (H household_pattern 3%Z _ Hin).
Defined.

(** The search of lines 103-146 yields nothing on an empty profile and with
    an empty active catalog. *)
Lemma optimize_insufficient_data_general (db : Session)
    (spending_pattern : list (string * Q)) (max_cards : Z) :
  spending_pattern = [] \/ available_cards db = [] ->
  optimize_with_pattern db spending_pattern max_cards = [].
Proof.
  intros [H|H]; unfold optimize_with_pattern.
  - rewrite H. reflexivity.
  - destruct spending_pattern; [reflexivity|].
    rewrite H. simpl List.length.
    rewrite py_range_empty by lia. reflexivity.
Qed.

(** C7: [optimize_card_combination] raises the database error of the
    profiler's statement for every input.  User 7 of [capped_db] has no
    expense, and lines 103-104 would return the empty list for the empty
    profile, but the call of line 101 has raised before. *)
Theorem optimize_card_combination_raises :
  (forall db now user_id max_cards,
     optimize_card_combination db now user_id max_cards = Raised DBAPIError)
  /\ expenses capped_db = []
  /\ optimize_with_pattern capped_db [] 3 = []
  /\ optimize_card_combination capped_db household_now 7 3 = Raised DBAPIError.
Proof.
  repeat split; reflexivity.
Qed.

(** ** [minimum_spend] is never read *)

Lemma fold_left_map {A B S : Type} (f : S -> B -> S) (g : A -> B) (l : list A) (st0 : S) :
  fold_left f (map g l) st0 = fold_left (fun st x => f st (g x)) l st0.
Proof.
  revert st0. induction l as [|x l IH]; intro st0; simpl; [reflexivity|apply IH].
Qed.

Lemma filter_map_commute {A B : Type} (g : A -> B) (p : B -> bool) (l : list A) :
  filter p (map g l) = map g (filter (fun x => p (g x)) l).
Proof.
  induction l as [|x l IH]; simpl; [reflexivity|].
  destruct (p (g x)); simpl; rewrite IH; reflexivity.
Qed.

Lemma forget_same_rule (r1 r2 : CardReward.t) :
  same_rule_but_minimum_spend r1 r2 ->
  forget_minimum_spend r1 = forget_minimum_spend r2.
Proof.
  intros (H1 & H2 & H3 & H4 & H5 & H6 & H7 & H8).
  unfold forget_minimum_spend. congruence.
Qed.

Lemma forget_same_db (db1 db2 : Session) :
  same_but_minimum_spend db1 db2 ->
  forget_minimum_spends db1 = forget_minimum_spends db2.
Proof.
  intros (H1 & H2 & H3 & H4 & H5 & H6).
  unfold forget_minimum_spends. rewrite H1, H2, H3, H4, H5. f_equal.
  induction H6 as [|r1 r2 l1 l2 Hr _ IH]; simpl; [reflexivity|].
  rewrite (forget_same_rule _ _ Hr), IH. reflexivity.
Qed.

Section Forget.

Variable db : Session.

Let fdb : Session := forget_minimum_spends db.

Lemma active_rewards_forget (card : CreditCard.t) :
  active_rewards fdb card = map forget_minimum_spend (active_rewards db card).
Proof.
  unfold active_rewards, fdb. simpl. apply filter_map_commute.
Qed.

Lemma active_general_rewards_forget (card : CreditCard.t) :
  active_general_rewards fdb card
  = map forget_minimum_spend (active_general_rewards db card).
Proof.
  unfold active_general_rewards, fdb. simpl. apply filter_map_commute.
Qed.

Lemma best_rate_forget (rs : list CardReward.t) (cat : string) (a : Q) :
  best_rate fdb (map forget_minimum_spend rs) cat a = best_rate db rs cat a.
Proof.
  unfold best_rate. rewrite !fold_left_map. reflexivity.
Qed.

Lemma best_amount_forget (cs : list CreditCard.t) (cat : string) (a : Q) :
  best_amount fdb cs cat a = best_amount db cs cat a.
Proof.
  unfold best_amount.
  assert (H1 : forall st,
             fold_left (fun st card =>
                          fold_left (amount_step_category fdb cat a)
                                    (active_rewards fdb card) st) cs st
             = fold_left (fun st card =>
                            fold_left (amount_step_category db cat a)
                                      (active_rewards db card) st) cs st).
  { intro st. apply fold_left_pointwise. intros s card _.
    rewrite active_rewards_forget, fold_left_map. reflexivity. }
  assert (H2 : forall st,
             fold_left (fun st card =>
                          fold_left (amount_step a)
                                    (active_general_rewards fdb card) st) cs st
             = fold_left (fun st card =>
                            fold_left (amount_step a)
                                      (active_general_rewards db card) st) cs st).
  { intro st. apply fold_left_pointwise. intros s card _.
    rewrite active_general_rewards_forget, fold_left_map. reflexivity. }
  rewrite H1, H2. reflexivity.
Qed.

Lemma calculate_card_rewards_forget (card : CreditCard.t) (P : list (string * Q)) :
  calculate_card_rewards fdb card P = calculate_card_rewards db card P.
Proof.
  unfold calculate_card_rewards. apply fold_left_pointwise. intros acc item _.
  unfold rewards_step, category_entry.
  rewrite active_rewards_forget, best_rate_forget. reflexivity.
Qed.

Lemma calculate_combination_rewards_forget (cs : list CreditCard.t)
    (P : list (string * Q)) :
  _calculate_combination_rewards fdb cs P = _calculate_combination_rewards db cs P.
Proof.
  unfold _calculate_combination_rewards. apply fold_left_pointwise.
  intros acc item _. unfold combination_step. rewrite best_amount_forget. reflexivity.
Qed.

Lemma optimize_with_pattern_forget (P : list (string * Q)) (max_cards : Z) :
  optimize_with_pattern fdb P max_cards = optimize_with_pattern db P max_cards.
Proof.
  unfold optimize_with_pattern.
  change (available_cards fdb) with (available_cards db).
  destruct P as [|item items]; [reflexivity|].
  f_equal. f_equal. apply flat_map_ext. intro n. apply map_ext. intro subset.
  unfold score_combination. rewrite calculate_combination_rewards_forget. reflexivity.
Qed.

Lemma optimize_card_combination_forget (now user_id max_cards : Z) :
  optimize_card_combination fdb now user_id max_cards
  = optimize_card_combination db now user_id max_cards.
Proof.
  unfold optimize_card_combination.
  change (get_user_spending_pattern fdb now user_id 3)
    with (get_user_spending_pattern db now user_id 3).
  destruct (get_user_spending_pattern db now user_id 3) as [P|e]; [|reflexivity].
  unfold bind. rewrite optimize_with_pattern_forget. reflexivity.
Qed.

Lemma get_purchase_recommendation_forget (user_id merchant_id : Z) (amount : Q) :
  get_purchase_recommendation fdb user_id merchant_id amount
  = get_purchase_recommendation db user_id merchant_id amount.
Proof.
  unfold get_purchase_recommendation.
  change (owned_active_cards fdb user_id) with (owned_active_cards db user_id).
  change (merchants fdb) with (merchants db).
  change (categories fdb) with (categories db).
  destruct (owned_active_cards db user_id) as [|c0 owned0]; [reflexivity|].
  destruct (find (fun m => Z.eqb (Merchant.id m) merchant_id) (merchants db))
    as [merchant|]; [|reflexivity].
  assert (H : purchase_scan fdb merchant merchant_id amount (c0 :: owned0)
              = purchase_scan db merchant merchant_id amount (c0 :: owned0)).
  { unfold purchase_scan. apply fold_left_pointwise. intros st card _.
    rewrite active_rewards_forget, fold_left_map. reflexivity. }
  rewrite H. reflexivity.
Qed.

End Forget.

(** C10: two databases that differ only in the [minimum_spend] of their
    reward rules give the same card rewards, the same combination rewards,
    the same outcome of [optimize_card_combination], the same purchase
    advice, and the same ranked combinations of lines 103-146 on every
    profile. *)
Theorem minimum_spend_never_consulted (db1 db2 : Session) :
  same_but_minimum_spend db1 db2 ->
  (forall card spending_pattern,
     calculate_card_rewards db1 card spending_pattern
     = calculate_card_rewards db2 card spending_pattern)
  /\ (forall card_combination spending_pattern,
        _calculate_combination_rewards db1 card_combination spending_pattern
        = _calculate_combination_rewards db2 card_combination spending_pattern)
  /\ (forall now user_id max_cards,
        optimize_card_combination db1 now user_id max_cards
        = optimize_card_combination db2 now user_id max_cards)
  /\ (forall user_id merchant_id amount,
        get_purchase_recommendation db1 user_id merchant_id amount
        = get_purchase_recommendation db2 user_id merchant_id amount)
  /\ (forall spending_pattern max_cards,
        optimize_with_pattern db1 spending_pattern max_cards
        = optimize_with_pattern db2 spending_pattern max_cards).
Proof.
  intro H. apply forget_same_db in H.
  split; [|split; [|split; [|split]]]; intros.
  - rewrite <- (calculate_card_rewards_forget db1),
            <- (calculate_card_rewards_forget db2), H. reflexivity.
  - rewrite <- (calculate_combination_rewards_forget db1),
            <- (calculate_combination_rewards_forget db2), H. reflexivity.
  - rewrite <- (optimize_card_combination_forget db1),
            <- (optimize_card_combination_forget db2), H. reflexivity.
  - rewrite <- (get_purchase_recommendation_forget db1),
            <- (get_purchase_recommendation_forget db2), H. reflexivity.
  - rewrite <- (optimize_with_pattern_forget db1),
            <- (optimize_with_pattern_forget db2), H. reflexivity.
Qed.

Lemma minimum_spend_never_consulted_witness :
  (forall card spending_pattern,
     calculate_card_rewards capped_db card spending_pattern
     = calculate_card_rewards capped_db_minimum_50 card spending_pattern)
  /\ (forall card_combination spending_pattern,
        _calculate_combination_rewards capped_db card_combination spending_pattern
        = _calculate_combination_rewards capped_db_minimum_50 card_combination
                                         spending_pattern)
  /\ (forall now user_id max_cards,
        optimize_card_combination capped_db now user_id max_cards
        = optimize_card_combination capped_db_minimum_50 now user_id max_cards)
  /\ (forall user_id merchant_id amount,
        get_purchase_recommendation capped_db user_id merchant_id amount
        = get_purchase_recommendation capped_db_minimum_50 user_id merchant_id amount)
  /\ (forall spending_pattern max_cards,
        optimize_with_pattern capped_db spending_pattern max_cards
        = optimize_with_pattern capped_db_minimum_50 spending_pattern max_cards).
Proof.
  apply (minimum_spend_never_consulted capped_db capped_db_minimum_50).
  repeat split; try reflexivity.
  constructor; [|constructor].
  repeat split; reflexivity.
Defined.

(** ** One card scored as a combination *)

Lemma fold_left_rel {A S T : Type} (R : S -> T -> Prop) (f : S -> A -> S)
    (g : T -> A -> T) (l : list A) (s : S) (t : T) :
  (forall s t x, In x l -> R s t -> R (f s x) (g t x)) ->
  R s t -> R (fold_left f l s) (fold_left g l t).
Proof.
  revert s t. induction l as [|x l IH]; intros s t Hstep HR; simpl.
  - exact HR.
  - apply IH.
    + intros s' t' y Hy. apply Hstep. right. exact Hy.
    + apply Hstep; [left; reflexivity|exact HR].
Qed.

Lemma filter_andb {A : Type} (p q : A -> bool) (l : list A) :
  filter (fun x => p x && q x) l = filter q (filter p l).
Proof.
  induction l as [|x l IH]; simpl; [reflexivity|].
  destruct (p x); simpl; [destruct (q x)|]; rewrite IH; reflexivity.
Qed.

Lemma active_general_rewards_filter (db : Session) (card : CreditCard.t) :
  active_general_rewards db card
  = filter (fun r => is_None (CardReward.category_id r)) (active_rewards db card).
Proof.
  unfold active_general_rewards, active_rewards. apply filter_andb.
Qed.

Lemma applicable_not_binding (r : CardReward.t) (a : Q) :
  cap_not_binding r a -> applicable r (a * 12) == a * 12.
Proof.
  unfold cap_not_binding, applicable, truthy.
  destruct (CardReward.maximum_spend r) as [m|]; [|reflexivity].
  intros [H|H].
  - assert (E : Qeq_bool m 0 = true) by (apply Qeq_bool_iff; exact H).
    rewrite E. reflexivity.
  - destruct (negb (Qeq_bool m 0)); [|reflexivity].
    unfold py_min, Qltb.
    assert (E : Qgtb (a * 12) (m * 12) = false).
    { apply Qgtb_false. apply Qmult_le_compat_r; [exact H|discriminate]. }
    rewrite E. reflexivity.
Qed.

Lemma is_None_category (db : Session) (r : CardReward.t) :
  category_resolves db r ->
  is_None (category db r) = is_None (CardReward.category_id r).
Proof.
  unfold category_resolves, category.
  destruct (CardReward.category_id r) as [cid|]; [|reflexivity].
  intros [H|H]; [discriminate|].
  destruct (find (fun c => Z.eqb (Category.id c) cid) (categories db));
    [reflexivity|contradiction].
Qed.

Lemma amount_step_agree (ann : Q) (r : CardReward.t) (s1 s2 : Q * string) :
  0 < ann -> applicable r ann == ann -> rate_amount_agree ann s1 s2 ->
  rate_amount_agree ann
    (if Qgtb (CardReward.reward_rate r) (fst s1)
     then (CardReward.reward_rate r, value (CardReward.reward_type r)) else s1)
    (amount_step ann s2 r).
Proof.
  intros Hann Happ [Hfst Hsnd]. unfold amount_step. cbv zeta.
  assert (E : Qgtb (applicable r ann * CardReward.reward_rate r) (fst s2)
              = Qgtb (CardReward.reward_rate r) (fst s1)).
  { rewrite (Qgtb_compat _ (ann * CardReward.reward_rate r) _ (ann * fst s1));
      [|rewrite Happ; reflexivity|exact Hfst].
    destruct (Qgtb (CardReward.reward_rate r) (fst s1)) eqn:E1.
    - apply Qgtb_true. apply Qgtb_true in E1. apply Qmult_lt_l; assumption.
    - apply Qgtb_false. apply Qgtb_false in E1. apply Qmult_le_l; assumption. }
  rewrite E. destruct (Qgtb (CardReward.reward_rate r) (fst s1)).
  - split; simpl; [rewrite Happ; reflexivity|reflexivity].
  - split; assumption.
Qed.

Lemma amount_step_category_spec (db : Session) (cat : string) (ann : Q)
    (st : Q * string) (r : CardReward.t) :
  amount_step_category db cat ann st r
  = if category_is db r cat
       && Qgtb (applicable r ann * CardReward.reward_rate r) (fst st)
    then (applicable r ann * CardReward.reward_rate r, value (CardReward.reward_type r))
    else st.
Proof.
  unfold amount_step_category, amount_step. destruct (category_is db r cat); reflexivity.
Qed.

Section SingleCard.

Variable db : Session.
Variable card : CreditCard.t.

Let rs : list CardReward.t := active_rewards db card.

Hypothesis rules_resolve : forall r, In r rs -> category_resolves db r.

Lemma best_amount_single (cat : string) (ann : Q) :
  best_amount db [card] cat ann
  = let st := fold_left (amount_step_category db cat ann) rs (0, "cashback") in
    if Qeq_bool (fst st) 0
    then fold_left (fun st r => if is_None (CardReward.category_id r)
                                then amount_step ann st r else st) rs st
    else st.
Proof.
  unfold best_amount. simpl. fold rs.
  rewrite active_general_rewards_filter, fold_left_filter. reflexivity.
Qed.

Lemma single_card_positive (cat : string) (a : Q) :
  0 < a -> (forall r, In r rs -> consulted db rs cat a r -> cap_not_binding r a) ->
  rate_amount_agree (a * 12) (best_rate db rs cat (a * 12))
                    (best_amount db [card] cat (a * 12)).
Proof.
  intros Ha Hcap. rewrite best_amount_single. unfold best_rate. cbv zeta.
  assert (Hann : 0 < a * 12).
  { rewrite <- (Qmult_0_l 12). apply Qmult_lt_compat_r; [reflexivity|exact Ha]. }
  set (s1 := fold_left (rate_step_category db cat (a * 12)) rs (0, "cashback")).
  set (s2 := fold_left (amount_step_category db cat (a * 12)) rs (0, "cashback")).
  assert (H12 : rate_amount_agree (a * 12) s1 s2).
  { apply fold_left_rel.
    - intros s t r Hr HR. unfold rate_step_category, amount_step_category.
      destruct (category_is db r cat) eqn:Hc; [|exact HR].
      apply amount_step_agree; auto. apply applicable_not_binding.
      apply Hcap; [exact Hr|]. left. exact Hc.
    - split; simpl; [ring|reflexivity]. }
  assert (E : Qeq_bool (fst s2) 0 = Qeq_bool (fst s1) 0).
  { destruct H12 as [Hfst _].
    destruct (Qeq_bool (fst s1) 0) eqn:E1.
    - apply Qeq_bool_iff. apply Qeq_bool_iff in E1. rewrite Hfst, E1. ring.
    - destruct (Qeq_bool (fst s2) 0) eqn:E2; [|reflexivity].
      apply Qeq_bool_iff in E2. rewrite Hfst in E2.
      apply Qmult_integral in E2. destruct E2 as [E2|E2].
      + rewrite E2 in Hann. exfalso. exact (Qlt_irrefl _ Hann).
      + apply Qeq_bool_iff in E2. congruence. }
  rewrite E. destruct (Qeq_bool (fst s1) 0) eqn:E1; [|exact H12].
  apply Qeq_bool_iff in E1.
  assert (Hnone : forall r', In r' rs -> category_is db r' cat = true ->
                             a * CardReward.reward_rate r' <= 0).
  { intros r' Hr' Hc'.
    assert (Hle : CardReward.reward_rate r' <= fst s1).
    { apply (keep_largest_upper _ _ fst CardReward.reward_rate
               (fun r => (CardReward.reward_rate r, value (CardReward.reward_type r)))
               (fun r => category_is db r cat) (rate_step_category db cat (a * 12)));
        auto using rate_step_category_spec. }
    rewrite E1 in Hle. rewrite <- (Qmult_0_r a).
    apply Qmult_le_l; assumption. }
  apply fold_left_rel; [|exact H12].
  intros s t r Hr HR. unfold rate_step_general.
  rewrite (is_None_category db r (rules_resolve r Hr)).
  destruct (CardReward.category_id r) as [cid|] eqn:Hcid; [exact HR|]. simpl.
  apply amount_step_agree; auto. apply applicable_not_binding.
  apply Hcap; [exact Hr|]. right. split; [exact Hcid|exact Hnone].
Qed.

Lemma single_card_zero (cat : string) (a : Q) :
  a == 0 -> (forall r, In r rs -> consulted db rs cat a r -> cap_not_binding r a) ->
  best_amount db [card] cat (a * 12) = (0, "cashback").
Proof.
  intros Ha Hcap. rewrite best_amount_single. cbv zeta.
  assert (Hcand : forall r, In r rs -> consulted db rs cat a r ->
                            applicable r (a * 12) * CardReward.reward_rate r <= 0).
  { intros r Hr Hcons. rewrite (applicable_not_binding r a (Hcap r Hr Hcons)), Ha.
    ring_simplify. apply Qle_refl. }
  assert (H1 : fold_left (amount_step_category db cat (a * 12)) rs (0, "cashback")
               = (0, "cashback")).
  { apply (keep_largest_unchanged _ _ fst
             (fun r => applicable r (a * 12) * CardReward.reward_rate r)
             (fun r => (applicable r (a * 12) * CardReward.reward_rate r,
                        value (CardReward.reward_type r)))
             (fun r => category_is db r cat)
             (amount_step_category db cat (a * 12))
             (amount_step_category_spec db cat (a * 12))).
    intros r Hr Hc. apply Hcand; [exact Hr|]. left. exact Hc. }
  rewrite H1. simpl.
  apply (keep_largest_unchanged _ _ fst
           (fun r => applicable r (a * 12) * CardReward.reward_rate r)
           (fun r => (applicable r (a * 12) * CardReward.reward_rate r,
                      value (CardReward.reward_type r)))
           (fun r => is_None (CardReward.category_id r))).
  - intros st r. unfold amount_step.
    destruct (is_None (CardReward.category_id r)); reflexivity.
  - intros r Hr Hn. apply Hcand; [exact Hr|]. right. split.
    + destruct (CardReward.category_id r); [discriminate Hn|reflexivity].
    + intros r' _ _. rewrite Ha. ring_simplify. apply Qle_refl.
Qed.

Lemma single_card_totals (P : list (string * Q)) :
  (forall item, In item P -> 0 <= snd item) ->
  (forall r item, In r rs -> In item P -> consulted db rs (fst item) (snd item) r ->
                  cap_not_binding r (snd item)) ->
  total_cashback (calculate_card_rewards db card P)
  == Combination.total_cashback (_calculate_combination_rewards db [card] P)
  /\ total_points (calculate_card_rewards db card P)
     == Combination.total_points (_calculate_combination_rewards db [card] P).
Proof.
  intros Hnn Hcap. unfold calculate_card_rewards, _calculate_combination_rewards.
  fold rs.
  apply (fold_left_rel
           (fun (acc1 : Rewards) (acc2 : Combination.t) =>
              total_cashback acc1 == Combination.total_cashback acc2
              /\ total_points acc1 == Combination.total_points acc2)).
  - intros acc1 acc2 [cat a] Hin [Hc Hp].
    unfold rewards_step, combination_step, category_entry. cbn [fst snd].
    cbn [Breakdown.type Breakdown.amount].
    assert (Hcap' : forall r, In r rs -> consulted db rs cat a r -> cap_not_binding r a).
    { intros r Hr. exact (Hcap r (cat, a) Hr Hin). }
    destruct (Qle_lt_or_eq _ _ (Hnn (cat, a) Hin)) as [Hpos|Hzero]; cbn [snd] in *.
    + destruct (single_card_positive cat a Hpos Hcap') as [Hfst Hsnd].
      rewrite Hsnd. destruct (String.eqb (snd (best_rate db rs cat (a * 12))) "cashback");
        cbn [total_cashback total_points Combination.total_cashback
             Combination.total_points];
        rewrite Hfst; split; try assumption; rewrite ?Hc, ?Hp; reflexivity.
    + assert (Ha : a == 0) by (symmetry; exact Hzero).
      assert (Hz : forall x, a * 12 * x == 0) by (intro x; rewrite Ha; ring).
      rewrite (single_card_zero cat a Ha Hcap'). cbn [fst snd]. simpl String.eqb.
      cbv iota.
      destruct (String.eqb (snd (best_rate db rs cat (a * 12))) "cashback");
        cbn [total_cashback total_points Combination.total_cashback
             Combination.total_points];
        rewrite ?Hz, ?Hc, ?Hp; split; ring.
  - split; reflexivity.
Qed.

End SingleCard.

(** C3, as stated, fails, and not only where [calculate_card_rewards] drops
    the cap: the card of [two_petrol_rules_db] pays 5% cashback on Petrol up
    to 100 a month and 3% in points without cap.  For 1000 a month on
    Petrol, [calculate_card_rewards] takes the rule of the highest rate (5%,
    cashback) and reports no points, while the one-card combination takes
    the rule of the highest capped reward (3%, points) and reports 360
    points and no cashback. *)
Lemma single_card_refinement_counterexample :
  let R := calculate_card_rewards two_petrol_rules_db petrol_card [("Petrol", 1000)] in
  let C := _calculate_combination_rewards two_petrol_rules_db [petrol_card]
             [("Petrol", 1000)] in
  total_cashback R == 600 /\ total_points R == 0
  /\ Combination.total_cashback C == 0 /\ Combination.total_points C == 360
  /\ ~ total_cashback R == Combination.total_cashback C
  /\ ~ total_points R == Combination.total_points C.
Proof.
  cbv zeta. repeat split; try (vm_compute; reflexivity);
    intro H; vm_compute in H; discriminate H.
Qed.

(** C3, amended: when the amounts of the profile are non-negative, the
    category key of each active rule of the card resolves, and no cap binds
    the amount of an item on a rule consulted for it (a rule of the item's
    category, or a rule without category when no rule of that category
    earns a positive reward on the item), the one-card combination has the
    same total cashback and total points as [calculate_card_rewards]. *)
Theorem single_card_refinement (db : Session) (card : CreditCard.t)
    (spending_pattern : list (string * Q)) :
  (forall item, In item spending_pattern -> 0 <= snd item) ->
  (forall r item, In r (active_rewards db card) -> In item spending_pattern ->
                  consulted db (active_rewards db card) (fst item) (snd item) r ->
                  cap_not_binding r (snd item)) ->
  (forall r, In r (active_rewards db card) -> category_resolves db r) ->
  total_cashback (calculate_card_rewards db card spending_pattern)
  == Combination.total_cashback
       (_calculate_combination_rewards db [card] spending_pattern)
  /\ total_points (calculate_card_rewards db card spending_pattern)
     == Combination.total_points
          (_calculate_combination_rewards db [card] spending_pattern).
Proof.
  intros Hnn Hcap Hres. apply single_card_totals; assumption.
Qed.

Lemma single_card_refinement_witness :
  let P := [("Petrol", 200); ("Groceries", 400)] in
  ~ cap_not_binding
      (CardReward.mk 1 1 (Some 1%Z) None CASHBACK (5 # 100) 0 (Some 300) true) 400
  /\ total_cashback (calculate_card_rewards household_db petrol_card P)
     == Combination.total_cashback
          (_calculate_combination_rewards household_db [petrol_card] P)
  /\ total_points (calculate_card_rewards household_db petrol_card P)
     == Combination.total_points
          (_calculate_combination_rewards household_db [petrol_card] P).
Proof.
  cbv zeta. split.
  - intros [H|H]; vm_compute in H; [discriminate H|apply H; reflexivity].
  - apply (single_card_refinement household_db petrol_card
             [("Petrol", 200); ("Groceries", 400)]).
    + intros item [<-|[<-|[]]]; discriminate.
    + intros r item [<-|[<-|[]]] [<-|[<-|[]]] Hcons; simpl; try exact I.
      * right. discriminate.
      * destruct Hcons as [Hc|[Hc _]]; discriminate Hc.
    + intros r [<-|[<-|[]]]; [right|left]; [discriminate|reflexivity].
Defined.
(** ** The spending profile *)

Lemma Qsum_from (l : list Q) (a : Q) : fold_left Qplus l a == a + Qsum l.
Proof.
  unfold Qsum. revert a. induction l as [|x l IH]; intro a; simpl.
  - ring.
  - rewrite (IH (a + x)), (IH (0 + x)). ring.
Qed.

Lemma Qsum_cons (x : Q) (l : list Q) : Qsum (x :: l) == x + Qsum l.
Proof.
  unfold Qsum at 1. simpl. rewrite Qsum_from. ring.
Qed.

Lemma dict_set_fresh {V : Type} (k : string) (v : V) (d : list (string * V)) :
  ~ In k (map fst d) -> dict_set k v d = d ++ [(k, v)].
Proof.
  induction d as [|[k' v'] d IH]; simpl; intro H; [reflexivity|].
  destruct (String.eqb k' k) eqn:E.
  - apply String.eqb_eq in E. exfalso. apply H. left. exact E.
  - rewrite IH; [reflexivity|]. intro Hin. apply H. right. exact Hin.
Qed.

(** Every call of the profiler ends in the database error. *)
Lemma profiler_raises (db : Session) (now user_id months : Z) :
  get_user_spending_pattern db now user_id months = Raised DBAPIError.
Proof. reflexivity. Qed.

(** C6: the select list of the statement holds [avg(sum(amount))], an
    aggregate call in the argument of another, over a single [GROUP BY]
    list of six columns; the database refuses the statement, so
    [get_user_spending_pattern] raises for every database, user and window,
    and returns no profile: not for user 7 of [household_db] either, whose
    expenses of the window are on Petrol and on Groceries. *)
Theorem get_user_spending_pattern_raises :
  select_list spending_statement
  = [Col Category_name; func_avg (func_sum (Col Expense_amount))]
  /\ group_by spending_statement
     = [Col Category_id; Col Category_name;
        extract Year (Col Expense_expense_date);
        extract Month (Col Expense_expense_date);
        Col Category_id; Col Category_name]
  /\ nested_aggregate (func_avg (func_sum (Col Expense_amount))) = true
  /\ (forall db now user_id months,
        get_user_spending_pattern db now user_id months = Raised DBAPIError)
  /\ map (fun row => (Category.name (fst row), Expense.amount (snd row)))
         (spending_rows household_db 7
            (household_now - timedelta_days (3 * 30)) household_now)
     = [("Petrol", 900); ("Petrol", 600); ("Groceries", 600)]
  /\ get_user_spending_pattern household_db household_now 7 3 = Raised DBAPIError.
Proof.
  repeat split; reflexivity.
Qed.

(** * Further properties of the engine *)

(** ** [calculate_card_rewards] *)

(** The result of [calculate_card_rewards] is the same whatever caps the
    rules carry. *)
Theorem calculate_card_rewards_cap_independent (cap : CardReward.t -> option Q)
    (db : Session) (card : CreditCard.t) (spending_pattern : list (string * Q)) :
  calculate_card_rewards (set_caps cap db) card spending_pattern
  = calculate_card_rewards db card spending_pattern.
Proof.
  unfold calculate_card_rewards. apply fold_left_pointwise. intros acc item _.
  unfold rewards_step, category_entry, best_rate.
  assert (Hr : active_rewards (set_caps cap db) card
               = map (fun r =>
                        CardReward.mk (CardReward.id r) (CardReward.credit_card_id r)
                          (CardReward.category_id r) (CardReward.merchant_id r)
                          (CardReward.reward_type r) (CardReward.reward_rate r)
                          (CardReward.minimum_spend r) (cap r) (CardReward.is_active r))
                     (active_rewards db card)).
  { unfold active_rewards, set_caps. simpl. apply filter_map_commute. }
  rewrite Hr, !fold_left_map. reflexivity.
Qed.

Lemma Qsum_snoc (l : list Q) (x : Q) : Qsum (l ++ [x]) == Qsum l + x.
Proof.
  unfold Qsum. rewrite fold_left_app. simpl. reflexivity.
Qed.

Lemma Qsum_step_cancel (s a e b t x : Q) :
  x == a + e -> s + x == b + e + t -> s + a == b + t.
Proof.
  intros Hx H. rewrite Hx in H. apply (Qplus_inj_r _ _ e).
  setoid_replace (s + a + e) with (s + (a + e)) by ring.
  rewrite H. ring.
Qed.

Lemma rewards_fold_breakdown (db : Session) (rewards : list CardReward.t)
    (P : list (string * Q)) (acc : Rewards) :
  NoDup (map fst (category_breakdown acc) ++ map fst P) ->
  let R := fold_left (rewards_step db rewards) P acc in
  map fst (category_breakdown R) = map fst (category_breakdown acc) ++ map fst P
  /\ Qsum (map (fun kv => Breakdown.amount (snd kv)) (category_breakdown R))
     + (total_cashback acc + total_points acc)
     == Qsum (map (fun kv => Breakdown.amount (snd kv)) (category_breakdown acc))
        + (total_cashback R + total_points R).
Proof.
  revert acc. induction P as [|[k a] P IH]; intros acc Hnd; simpl.
  - rewrite app_nil_r. split; reflexivity.
  - assert (Hk : ~ In k (map fst (category_breakdown acc))).
    { simpl in Hnd. apply NoDup_remove_2 in Hnd. intro Hin. apply Hnd.
      apply in_or_app. left. exact Hin. }
    set (e := category_entry db rewards k a).
    assert (Hstep : category_breakdown (rewards_step db rewards acc (k, a))
                    = category_breakdown acc ++ [(k, e)]
                    /\ total_cashback (rewards_step db rewards acc (k, a))
                       + total_points (rewards_step db rewards acc (k, a))
                       == total_cashback acc + total_points acc + Breakdown.amount e).
    { unfold rewards_step. cbn [fst snd]. fold e.
      rewrite (dict_set_fresh k e _ Hk).
      destruct (String.eqb (Breakdown.type e) "cashback"); simpl; split;
        try reflexivity; ring. }
    destruct Hstep as [Hb Ht].
    destruct (IH (rewards_step db rewards acc (k, a))) as [IH1 IH2].
    { rewrite Hb, map_app. simpl. rewrite <- app_assoc. exact Hnd. }
    split.
    + rewrite IH1, Hb, map_app. simpl. rewrite <- app_assoc. reflexivity.
    + rewrite Hb, map_app in IH2. simpl in IH2. rewrite Qsum_snoc in IH2.
      exact (Qsum_step_cancel _ _ _ _ _ _ Ht IH2).
Qed.

(** With the categories of the profile pairwise distinct (they are the keys
    of a dict), the breakdown has one entry per category of the profile, in
    the order of the profile, and the entry amounts add up to the two totals
    together. *)
Theorem card_rewards_breakdown_totals (db : Session) (card : CreditCard.t)
    (spending_pattern : list (string * Q)) :
  NoDup (map fst spending_pattern) ->
  let R := calculate_card_rewards db card spending_pattern in
  map fst (category_breakdown R) = map fst spending_pattern
  /\ Qsum (map (fun kv => Breakdown.amount (snd kv)) (category_breakdown R))
     == total_cashback R + total_points R.
Proof.
  intros Hnd R.
  destruct (rewards_fold_breakdown db (active_rewards db card) spending_pattern
              (mkRewards 0 0 []) Hnd) as [H1 H2].
  fold (calculate_card_rewards db card spending_pattern) in H1, H2. fold R in H1, H2.
  split; [exact H1|]. simpl in H2.
  apply (Qplus_inj_r _ _ (0 + 0)). rewrite H2. unfold Qsum. simpl. ring.
Qed.

Lemma card_rewards_breakdown_totals_witness :
  let R := calculate_card_rewards household_db petrol_card
             [("Petrol", 750); ("Groceries", 600)] in
  map fst (category_breakdown R) = ["Petrol"; "Groceries"]
  /\ Qsum (map (fun kv => Breakdown.amount (snd kv)) (category_breakdown R))
     == total_cashback R + total_points R.
Proof.
  apply (card_rewards_breakdown_totals household_db petrol_card
           [("Petrol", 750); ("Groceries", 600)]).
  simpl. constructor.
  - intros [H|[]]. discriminate H.
  - constructor; [intros []|constructor].
Defined.

(** ** [_calculate_combination_rewards] *)

Lemma in_active_general_rewards (db : Session) (card : CreditCard.t) (r : CardReward.t) :
  In r (active_general_rewards db card)
  <-> In r (active_rewards db card) /\ CardReward.category_id r = None.
Proof.
  rewrite active_general_rewards_filter, filter_In.
  destruct (CardReward.category_id r); simpl; split; intros [H1 H2];
    (split; [exact H1|]); try discriminate; reflexivity.
Qed.

Section BestAmount.

Variable db : Session.
Variable cards : list CreditCard.t.
Variable cat : string.
Variable ann : Q.

Let mk (cr : CreditCard.t * CardReward.t) : Q * string :=
  (candidate ann (snd cr), value (CardReward.reward_type (snd cr))).

Let step_category (st : Q * string) (cr : CreditCard.t * CardReward.t) :=
  amount_step_category db cat ann st (snd cr).

Let step_general (st : Q * string) (cr : CreditCard.t * CardReward.t) :=
  amount_step ann st (snd cr).

Let first_pass : Q * string :=
  fold_left step_category (card_rules (active_rewards db) cards) (0, "cashback").

Lemma best_amount_flat :
  best_amount db cards cat ann
  = if Qeq_bool (fst first_pass) 0
    then fold_left step_general (card_rules (active_general_rewards db) cards) first_pass
    else first_pass.
Proof.
  unfold best_amount, first_pass, step_category, step_general.
  rewrite (fold_left_nested (fun _ => amount_step_category db cat ann)).
  rewrite (fold_left_nested (fun _ => amount_step ann)). reflexivity.
Qed.

Lemma step_category_spec (st : Q * string) (cr : CreditCard.t * CardReward.t) :
  step_category st cr
  = if category_is db (snd cr) cat && Qgtb (candidate ann (snd cr)) (fst st)
    then mk cr else st.
Proof. apply amount_step_category_spec. Qed.

Lemma step_general_spec (st : Q * string) (cr : CreditCard.t * CardReward.t) :
  step_general st cr
  = if true && Qgtb (candidate ann (snd cr)) (fst st) then mk cr else st.
Proof. reflexivity. Qed.

Lemma first_pass_nonneg : 0 <= fst first_pass.
Proof.
  exact (keep_largest_mono _ _ fst _ mk _ step_category (fun _ => eq_refl)
           step_category_spec _ (0, "cashback")).
Qed.

Lemma best_amount_above_first_pass : fst first_pass <= fst (best_amount db cards cat ann).
Proof.
  rewrite best_amount_flat. destruct (Qeq_bool (fst first_pass) 0).
  - exact (keep_largest_mono _ _ fst _ mk _ step_general (fun _ => eq_refl)
             step_general_spec _ first_pass).
  - apply Qle_refl.
Qed.

Lemma best_amount_nonneg : 0 <= fst (best_amount db cards cat ann).
Proof.
  eapply Qle_trans; [apply first_pass_nonneg|apply best_amount_above_first_pass].
Qed.

Lemma best_amount_category_upper (card : CreditCard.t) (r : CardReward.t) :
  In card cards -> In r (active_rewards db card) -> category_is db r cat = true ->
  candidate ann r <= fst (best_amount db cards cat ann).
Proof.
  intros Hc Hr Hcat. eapply Qle_trans; [|apply best_amount_above_first_pass].
  apply (keep_largest_upper _ _ fst (fun cr => candidate ann (snd cr)) mk
           (fun cr => category_is db (snd cr) cat) step_category (fun _ => eq_refl)
           step_category_spec _ (0, "cashback") (card, r)).
  - apply in_card_rules. split; assumption.
  - exact Hcat.
Qed.

Lemma best_amount_origin :
  best_amount db cards cat ann = (0, "cashback")
  \/ exists card r,
       In card cards /\ In r (active_rewards db card)
       /\ (category_is db r cat = true \/ CardReward.category_id r = None)
       /\ best_amount db cards cat ann
          = (candidate ann r, value (CardReward.reward_type r))
       /\ 0 < candidate ann r.
Proof.
  rewrite best_amount_flat.
  destruct (keep_largest_origin _ _ fst (fun cr => candidate ann (snd cr)) mk
              (fun cr => category_is db (snd cr) cat) step_category (fun _ => eq_refl)
              step_category_spec (card_rules (active_rewards db) cards) (0, "cashback"))
    as [H1|([card r] & Hin & Hp & H1 & Hlt)]; fold first_pass in H1.
  - rewrite H1. simpl.
    destruct (keep_largest_origin _ _ fst (fun cr => candidate ann (snd cr)) mk
                (fun _ => true) step_general (fun _ => eq_refl)
                step_general_spec (card_rules (active_general_rewards db) cards)
                (0, "cashback"))
      as [H2|([card r] & Hin & _ & H2 & Hlt)].
    + left. exact H2.
    + right. exists card, r. apply in_card_rules in Hin. destruct Hin as [Hc Hr].
      apply in_active_general_rewards in Hr. destruct Hr as [Hr Hnone].
      repeat split; auto.
  - apply in_card_rules in Hin. destruct Hin as [Hc Hr]. simpl in Hp, Hlt.
    assert (Hne : Qeq_bool (fst first_pass) 0 = false).
    { rewrite H1. simpl. destruct (Qeq_bool (candidate ann r) 0) eqn:E; [|reflexivity].
      apply Qeq_bool_iff in E. rewrite E in Hlt. exfalso. exact (Qlt_irrefl _ Hlt). }
    rewrite Hne. right. exists card, r. repeat split; auto.
Qed.

Lemma best_amount_general_upper (card : CreditCard.t) (r : CardReward.t) :
  (forall card' r', In card' cards -> In r' (active_rewards db card') ->
                    category_is db r' cat = true -> candidate ann r' <= 0) ->
  In card cards -> In r (active_rewards db card) -> CardReward.category_id r = None ->
  candidate ann r <= fst (best_amount db cards cat ann).
Proof.
  intros Hnone Hc Hr Hgen. rewrite best_amount_flat.
  assert (H1 : first_pass = (0, "cashback")).
  { apply (keep_largest_unchanged _ _ fst (fun cr => candidate ann (snd cr)) mk
             (fun cr => category_is db (snd cr) cat) step_category step_category_spec).
    intros [card' r'] Hin Hp. apply in_card_rules in Hin. destruct Hin as [Hc' Hr'].
    simpl. exact (Hnone card' r' Hc' Hr' Hp). }
  rewrite H1. simpl.
  apply (keep_largest_upper _ _ fst (fun cr => candidate ann (snd cr)) mk
           (fun _ => true) step_general (fun _ => eq_refl) step_general_spec
           _ (0, "cashback") (card, r)); [|reflexivity].
  apply in_card_rules. split; [exact Hc|].
  apply in_active_general_rewards. split; assumption.
Qed.

End BestAmount.

(** The reward a combination earns on one category is never negative; it is
    at least the capped reward of every rule for that category on a card of
    the combination; unless it is 0 it is the strictly positive capped reward
    of one active rule of a card of the combination, a rule for that category
    or one without category; and when no rule for the category pays, it is
    at least the capped reward of every rule without category. *)
Theorem combination_category_allocation (db : Session) (card_combination : list CreditCard.t)
    (cat : string) (annual_amount : Q) :
  let st := best_amount db card_combination cat annual_amount in
  0 <= fst st
  /\ (forall card r,
        In card card_combination -> In r (active_rewards db card) ->
        category_is db r cat = true -> candidate annual_amount r <= fst st)
  /\ (st = (0, "cashback")
      \/ exists card r,
           In card card_combination /\ In r (active_rewards db card)
           /\ (category_is db r cat = true \/ CardReward.category_id r = None)
           /\ st = (candidate annual_amount r, value (CardReward.reward_type r))
           /\ 0 < candidate annual_amount r)
  /\ ((forall card r,
         In card card_combination -> In r (active_rewards db card) ->
         category_is db r cat = true -> candidate annual_amount r <= 0) ->
      forall card r,
        In card card_combination -> In r (active_rewards db card) ->
        CardReward.category_id r = None -> candidate annual_amount r <= fst st).
Proof.
  cbv zeta. split; [apply best_amount_nonneg|].
  split; [apply best_amount_category_upper|].
  split; [apply best_amount_origin|].
  intros Hnone card r. apply best_amount_general_upper. exact Hnone.
Qed.

Lemma combination_category_allocation_witness :
  candidate 1200 (CardReward.mk 2 1 None None CASHBACK (1 # 100) 0 None true)
  <= fst (best_amount zero_rate_db [petrol_card; grocery_card] "Petrol" 1200).
Proof.
  destruct (combination_category_allocation zero_rate_db [petrol_card; grocery_card]
              "Petrol" 1200) as (_ & _ & _ & H).
  refine (H _ petrol_card _ _ _ _).
  - intros card r Hc Hr Hcat.
    unfold active_rewards in Hr. apply filter_In in Hr. destruct Hr as [Hr _].
    destruct Hr as [<-|[<-|[]]].
    + discriminate.
    + unfold category_is in Hcat. simpl in Hcat. discriminate Hcat.
  - left. reflexivity.
  - right. left. reflexivity.
  - reflexivity.
Defined.

(** The totals of a combination are never negative, whatever the signs of
    the amounts and of the rates. *)
Theorem combination_rewards_nonneg (db : Session) (card_combination : list CreditCard.t)
    (spending_pattern : list (string * Q)) :
  0 <= Combination.total_cashback
         (_calculate_combination_rewards db card_combination spending_pattern)
  /\ 0 <= Combination.total_points
            (_calculate_combination_rewards db card_combination spending_pattern).
Proof.
  unfold _calculate_combination_rewards.
  assert (H : forall P acc,
             0 <= Combination.total_cashback acc /\ 0 <= Combination.total_points acc ->
             0 <= Combination.total_cashback
                    (fold_left (combination_step db card_combination) P acc)
             /\ 0 <= Combination.total_points
                       (fold_left (combination_step db card_combination) P acc)).
  { induction P as [|item P IH]; intros acc Hacc; simpl; [exact Hacc|].
    apply IH. unfold combination_step.
    pose proof (best_amount_nonneg db card_combination (fst item) (snd item * 12)) as Hb.
    destruct Hacc as [Hc Hp].
    destruct (String.eqb (snd (best_amount db card_combination (fst item)
                                           (snd item * 12))) "cashback"); simpl; split;
      try assumption.
    - rewrite <- (Qplus_0_l 0). apply Qplus_le_compat; assumption.
    - rewrite <- (Qplus_0_l 0). apply Qplus_le_compat; assumption. }
  apply H. simpl. split; apply Qle_refl.
Qed.

(** ** [optimize_card_combination] *)

Lemma py_range_in (start stop n : Z) :
  (start <= n < stop)%Z -> In n (py_range start stop).
Proof.
  intro H. unfold py_range. apply in_map_iff.
  exists (Z.to_nat (n - start)). split; [lia|]. apply in_seq. lia.
Qed.

Lemma combinations_zero {A : Type} (l : list A) : combinations l 0 = [[]].
Proof. destruct l; reflexivity. Qed.

(** Every selection of elements of a list, kept in order, is enumerated. *)
Lemma combinations_filter {A : Type} (keep : A -> bool) (l : list A) :
  In (filter keep l) (combinations l (List.length (filter keep l))).
Proof.
  induction l as [|x l IH]; simpl; [left; reflexivity|].
  destruct (keep x); simpl.
  - apply in_or_app. left. apply in_map. exact IH.
  - destruct (List.length (filter keep l)) eqn:E.
    + left. symmetry. apply length_zero_iff_nil. exact E.
    + apply in_or_app. right. exact IH.
Qed.

Lemma sort_desc_head_largest {A : Type} (key : A -> Q) (l : list A) (x : A) :
  In x l ->
  exists h t, sort_desc key l = h :: t /\ key x <= key h.
Proof.
  intro Hin.
  assert (Hx : In x (sort_desc key l)).
  { apply (Permutation_in x (Permutation_sym (sort_desc_perm _ key l))). exact Hin. }
  pose proof (sort_desc_sorted _ key l) as Hs.
  destruct (sort_desc key l) as [|h t]; [destruct Hx|].
  exists h, t. split; [reflexivity|].
  destruct Hx as [<-|Hx]; [apply Qle_refl|].
  inversion Hs as [|? ? _ Hall]; subst.
  rewrite Forall_forall in Hall. exact (Hall x Hx).
Qed.

Lemma combinations_size_le {A : Type} (l : list A) (r : nat) (c : list A) :
  In c (combinations l r) -> (r <= List.length l)%nat.
Proof.
  revert r c. induction l as [|x l IH]; intros r c H.
  - destruct r; simpl in *; [lia|contradiction].
  - destruct r as [|r]; simpl in *; [lia|].
    apply in_app_or in H. destruct H as [H|H].
    + apply in_map_iff in H. destruct H as (c' & _ & Hc).
      specialize (IH _ _ Hc). lia.
    + specialize (IH _ _ H). lia.
Qed.

(** The candidates lines 118-142 score and line 145 sorts. *)
Lemma optimize_candidate (db : Session) (spending_pattern : list (string * Q))
    (max_cards : Z) (subset : list CreditCard.t) :
  spending_pattern <> [] ->
  In subset (combinations (available_cards db) (List.length subset)) ->
  (1 <= Z.of_nat (List.length subset) <= max_cards)%Z ->
  exists best rest,
    optimize_with_pattern db spending_pattern max_cards = best :: rest
    /\ net_benefit (score_combination db spending_pattern subset) <= net_benefit best.
Proof.
  intros Hne Hin Hsize. unfold optimize_with_pattern.
  destruct spending_pattern as [|item items]; [contradiction|].
  set (P := item :: items).
  set (L := flat_map _ _).
  assert (HL : In (score_combination db P subset) L).
  { unfold L. apply in_flat_map. exists (Z.of_nat (List.length subset)). split.
    - apply py_range_in.
      pose proof (combinations_size_le _ _ _ Hin) as Hle.
      lia.
    - rewrite Nat2Z.id. apply in_map. exact Hin. }
  destruct (sort_desc_head_largest net_benefit L _ HL) as (h & t & Hs & Hle).
  rewrite Hs. simpl. exists h. eexists. split; [reflexivity|exact Hle].
Qed.

(** On a non-empty profile, the first combination of the result of lines
    103-146 has the highest net benefit of all selections of 1 to
    [max_cards] cards of the active catalog. *)
Theorem optimize_first_is_best (db : Session) (spending_pattern : list (string * Q))
    (max_cards : Z) (keep : CreditCard.t -> bool) :
  let subset := filter keep (available_cards db) in
  spending_pattern <> [] ->
  (1 <= Z.of_nat (List.length subset) <= max_cards)%Z ->
  exists best rest,
    optimize_with_pattern db spending_pattern max_cards = best :: rest
    /\ net_benefit (score_combination db spending_pattern subset) <= net_benefit best.
Proof.
  intros subset Hne Hsize. apply optimize_candidate; auto.
  apply combinations_filter.
Qed.

Lemma optimize_first_is_best_witness :
  exists best rest,
    optimize_with_pattern household_db household_pattern 3 = best :: rest
    /\ net_benefit
         (score_combination household_db household_pattern
            (filter (fun c => Z.eqb (CreditCard.id c) 2) (available_cards household_db)))
       <= net_benefit best.
Proof.
  apply (optimize_first_is_best household_db household_pattern 3
           (fun c => Z.eqb (CreditCard.id c) 2)).
  - discriminate.
  - vm_compute. split; discriminate.
Defined.

Lemma optimize_nonempty (db : Session) (spending_pattern : list (string * Q))
    (max_cards : Z) :
  spending_pattern <> [] ->
  available_cards db <> [] ->
  (1 <= max_cards)%Z ->
  optimize_with_pattern db spending_pattern max_cards <> [].
Proof.
  intros HP HA HM Hempty.
  destruct (available_cards db) as [|c rest] eqn:EA; [contradiction|].
  destruct (optimize_candidate db spending_pattern max_cards [c] HP) as (b & r & Hb & _).
  - rewrite EA. simpl. rewrite combinations_zero. left. reflexivity.
  - simpl. lia.
  - rewrite Hempty in Hb. discriminate Hb.
Qed.

(** The result of lines 103-146 is the empty list exactly when the profile
    is empty, the active catalog is empty, or [max_cards] is below 1. *)
Theorem optimize_empty_iff (db : Session) (spending_pattern : list (string * Q))
    (max_cards : Z) :
  optimize_with_pattern db spending_pattern max_cards = []
  <-> spending_pattern = []
      \/ available_cards db = []
      \/ (max_cards < 1)%Z.
Proof.
  split.
  - intro Hempty.
    destruct spending_pattern as [|item items] eqn:EP; [left; reflexivity|].
    destruct (available_cards db) as [|c rest] eqn:EA; [right; left; reflexivity|].
    destruct (Z.ltb max_cards 1) eqn:EM; [right; right; apply Z.ltb_lt; exact EM|].
    apply Z.ltb_ge in EM. exfalso.
    apply (optimize_nonempty db (item :: items) max_cards); auto.
    + discriminate.
    + rewrite EA. discriminate.
  - intros [H|[H|H]].
    + apply optimize_insufficient_data_general. left. exact H.
    + apply optimize_insufficient_data_general. right. exact H.
    + unfold optimize_with_pattern.
      destruct spending_pattern; [reflexivity|].
      rewrite py_range_empty by lia. reflexivity.
Qed.

(** ** [get_purchase_recommendation] *)

(** The advisor answers "Merchant not found" exactly when the user owns an
    active card and no merchant has the given id; a user without active cards
    gets "No active cards", even for an unknown merchant. *)
Theorem purchase_merchant_not_found (db : Session) (user_id merchant_id : Z) (amount : Q) :
  (get_purchase_recommendation db user_id merchant_id amount = MerchantNotFound
   <-> owned_active_cards db user_id <> []
       /\ find (fun m => Z.eqb (Merchant.id m) merchant_id) (merchants db) = None)
  /\ (owned_active_cards db user_id = [] ->
      get_purchase_recommendation db user_id merchant_id amount = NoActiveCards).
Proof.
  unfold get_purchase_recommendation.
  destruct (owned_active_cards db user_id) as [|c0 owned0].
  - split; [|reflexivity]. split; [discriminate|]. intros [H _]. contradiction.
  - split; [|discriminate].
    destruct (find (fun m => Z.eqb (Merchant.id m) merchant_id) (merchants db))
      as [merchant|].
    + split; [|intros [_ H]; discriminate H].
      destruct (purchase_scan db merchant merchant_id amount (c0 :: owned0))
        as [[[best_card|] best_reward] best_type]; [|discriminate].
      destruct (find (fun c => Z.eqb (Category.id c) (Merchant.category_id merchant))
                     (categories db)); discriminate.
    + split; [|reflexivity]. intros _. split; [discriminate|reflexivity].
Qed.

Lemma purchase_merchant_not_found_witness :
  find (fun m => Z.eqb (Merchant.id m) 99) (merchants precedence_db) = None
  /\ get_purchase_recommendation precedence_db 8 99 100 = NoActiveCards
  /\ get_purchase_recommendation precedence_db 7 99 100 = MerchantNotFound.
Proof.
  split; [reflexivity|]. split.
  - apply (purchase_merchant_not_found precedence_db 8 99 100). reflexivity.
  - apply (purchase_merchant_not_found precedence_db 7 99 100).
    split; [discriminate|reflexivity].
Defined.

Lemma purchase_recommendation_positive (db : Session) (user_id merchant_id : Z)
    (amount : Q) (id : Z) (name bank : string) (reward : Q) (ty mname cname : string) :
  get_purchase_recommendation db user_id merchant_id amount
  = Recommended id name bank reward ty mname cname ->
  exists card rule,
    In card (owned_active_cards db user_id) /\ In rule (active_rewards db card)
    /\ 0 < amount * CardReward.reward_rate rule.
Proof.
  unfold get_purchase_recommendation.
  destruct (owned_active_cards db user_id) as [|c0 owned0]; [discriminate|].
  destruct (find (fun m => Z.eqb (Merchant.id m) merchant_id) (merchants db))
    as [merchant|]; [|discriminate].
  destruct (purchase_scan_origin db merchant merchant_id amount (c0 :: owned0))
    as [Heq|(card & rule & Hc & Hr & Heq & Hpos)]; rewrite Heq; [discriminate|].
  intros _. exists card, rule. split; [exact Hc|]. split; [exact Hr|].
  rewrite purchase_reward_amount_applies in Hpos.
  destruct (rule_applies merchant merchant_id rule); [exact Hpos|].
  exfalso. exact (Qlt_irrefl _ Hpos).
Qed.

(** A purchase of amount 0, or of a negative amount when no active rule of
    an owned card has a negative rate, is never answered with a
    recommendation. *)
Theorem purchase_nothing_to_earn (db : Session) (user_id merchant_id : Z) (amount : Q) :
  amount == 0
  \/ (amount <= 0
      /\ forall card r, In card (owned_active_cards db user_id) ->
                        In r (active_rewards db card) ->
                        0 <= CardReward.reward_rate r) ->
  forall id name bank reward ty mname cname,
    get_purchase_recommendation db user_id merchant_id amount
    <> Recommended id name bank reward ty mname cname.
Proof.
  intros Hamt id name bank reward ty mname cname Hrec.
  destruct (purchase_recommendation_positive db user_id merchant_id amount
              id name bank reward ty mname cname Hrec)
    as (card & rule & Hc & Hr & Hpos).
  destruct Hamt as [Hz|[Hneg Hrates]].
  - rewrite Hz, Qmult_0_l in Hpos. exact (Qlt_irrefl _ Hpos).
  - apply (Qlt_not_le _ _ Hpos).
    rewrite <- (Qmult_0_l (CardReward.reward_rate rule)).
    apply Qmult_le_compat_r; [exact Hneg|]. exact (Hrates card rule Hc Hr).
Qed.

Lemma purchase_nothing_to_earn_witness :
  get_purchase_recommendation precedence_db 7 1 0
  <> Recommended 2 "K" "Bank K" 0 "cashback" "Shell" "Petrol".
Proof.
  apply (purchase_nothing_to_earn precedence_db 7 1 0).
  left. reflexivity.
Defined.

(** * The endpoints *)

Lemma Qsum_perm (l l' : list Q) : Permutation l l' -> Qsum l == Qsum l'.
Proof.
  induction 1 as [|x l l' _ IH|x y l|l l' l'' _ IH1 _ IH2].
  - reflexivity.
  - rewrite !Qsum_cons, IH. reflexivity.
  - rewrite !Qsum_cons. ring.
  - rewrite IH1. exact IH2.
Qed.

Lemma Qsum_scale {A : Type} (g : A -> Q) (k : Q) (l : list A) :
  Qsum (map (fun x => g x * k) l) == Qsum (map g l) * k.
Proof.
  induction l as [|x l IH]; simpl.
  - unfold Qsum. simpl. ring.
  - rewrite !Qsum_cons, IH. ring.
Qed.

Lemma Qsum_pointwise {A : Type} (f g : A -> Q) (l : list A) :
  (forall x, f x == g x) -> Qsum (map f l) == Qsum (map g l).
Proof.
  intro H. induction l as [|x l IH]; simpl; [reflexivity|].
  rewrite !Qsum_cons, IH, H. reflexivity.
Qed.

(** ** [get_card_recommendations] *)


(** ** [get_spending_analysis] *)

(** A report of lines 87-114 lists the categories of the profile, each once
    with its monthly amount, in non-increasing order of amount;
    [top_categories] are its first five rows; when the total is positive
    the percentages add up to 100, and when it is not they are all 0. *)
Theorem spending_analysis_report (months : Z) (spending_pattern : list (string * Q))
    (period : Z) (total : Q) (breakdown top : list SpendingRow.t) :
  analyse_pattern months spending_pattern = SpendingReport period total breakdown top ->
  period = months
  /\ total = Qsum (map snd spending_pattern)
  /\ Permutation
       (map (fun r => (SpendingRow.category r, SpendingRow.monthly_amount r)) breakdown)
       spending_pattern
  /\ StronglySorted
       (fun a b => SpendingRow.monthly_amount b <= SpendingRow.monthly_amount a)
       breakdown
  /\ top = firstn 5 breakdown
  /\ (0 < total -> Qsum (map SpendingRow.percentage breakdown) == 100)
  /\ (total <= 0 -> forall r, In r breakdown -> SpendingRow.percentage r = 0).
Proof.
  unfold analyse_pattern.
  destruct spending_pattern as [|item items]; [discriminate|].
  set (P := item :: items). set (T := Qsum (map snd P)).
  set (row := fun it : string * Q =>
                SpendingRow.mk (fst it) (snd it)
                               (if Qgtb T 0 then snd it / T * 100 else 0)).
  intro H.
  assert (Hall : period = months /\ total = T
                 /\ breakdown = sort_desc SpendingRow.monthly_amount (map row P)
                 /\ top = firstn 5 (sort_desc SpendingRow.monthly_amount (map row P))).
  { inversion H. repeat split; reflexivity. }
  clear H. destruct Hall as (-> & -> & -> & ->).
  pose proof (sort_desc_perm _ SpendingRow.monthly_amount (map row P)) as Hperm.
  split; [reflexivity|]. split; [reflexivity|]. split; [|split; [|split; [|split]]].
  - eapply Permutation_trans; [apply Permutation_map; exact Hperm|].
    rewrite map_map.
    assert (Hid : forall l : list (string * Q),
               map (fun x => (SpendingRow.category (row x),
                              SpendingRow.monthly_amount (row x))) l = l).
    { induction l as [|[k v] l IH]; [reflexivity|].
      change ((k, v) :: map (fun x => (SpendingRow.category (row x),
                                       SpendingRow.monthly_amount (row x))) l
              = (k, v) :: l).
      f_equal. exact IH. }
    rewrite Hid. apply Permutation_refl.
  - exact (sort_desc_sorted _ SpendingRow.monthly_amount (map row P)).
  - reflexivity.
  - intro Hpos.
    transitivity (Qsum (map SpendingRow.percentage (map row P))).
    { apply Qsum_perm. apply Permutation_map. exact Hperm. }
    rewrite map_map.
    transitivity (Qsum (map (fun it : string * Q => snd it * (/ T * 100)) P)).
    { apply Qsum_pointwise. intro it. unfold row. cbn [SpendingRow.percentage].
      rewrite (proj2 (Qgtb_true T 0) Hpos). unfold Qdiv. ring. }
    rewrite (Qsum_scale (fun it : string * Q => snd it) (/ T * 100) P).
    change (Qsum (map (fun it : string * Q => snd it) P)) with T.
    field. intro Hz. rewrite Hz in Hpos. exact (Qlt_irrefl _ Hpos).
  - intros Hle r Hr.
    apply (Permutation_in r Hperm) in Hr. apply in_map_iff in Hr.
    destruct Hr as (it & <- & _). unfold row. simpl.
    rewrite (proj2 (Qgtb_false T 0) Hle). reflexivity.
Qed.

Lemma spending_analysis_report_witness :
  exists period total breakdown top,
    analyse_pattern 3 household_pattern = SpendingReport period total breakdown top
    /\ map SpendingRow.category breakdown = ["Petrol"; "Groceries"]
    /\ Qsum (map SpendingRow.percentage breakdown) == 100.
Proof.
  eexists. eexists. eexists. eexists. split; [vm_compute; reflexivity|].
  split; [reflexivity|].
  eapply (spending_analysis_report 3 household_pattern).
  - vm_compute. reflexivity.
  - reflexivity.
Defined.

(** ** [simulate_card_performance] *)

(** The simulation is answered 404 exactly when no active card has the
    given id; for an active card the call of the profiler raises, and the
    database error is the outcome.  Lines 137-165 answer 400 on an empty
    profile; on another profile their result is for the card, carries the
    totals of [calculate_card_rewards], a net benefit of cashback minus
    annual fee (points do not count), and a total annual spending of 12
    times the monthly amounts of the profile. *)
Theorem simulate_card_outcomes (db : Session) (now card_id current_user_id : Z) :
  (simulate_card_performance db now card_id current_user_id
   = Raised (HTTP (mkHTTPException 404 "Credit card not found"))
   <-> forall card, In card (credit_cards db) -> CreditCard.id card = card_id ->
                    CreditCard.is_active card = false)
  /\ ((exists card, In card (credit_cards db) /\ CreditCard.id card = card_id
                    /\ CreditCard.is_active card = true) ->
      simulate_card_performance db now card_id current_user_id = Raised DBAPIError)
  /\ (forall card,
        simulate_with_pattern db card []
        = Raised (HTTP (mkHTTPException 400 "No spending data found for simulation")))
  /\ (forall card spending_pattern,
        spending_pattern <> [] ->
        exists sim,
          simulate_with_pattern db card spending_pattern = Returned sim
          /\ Simulation.card_id sim = CreditCard.id card
          /\ Simulation.projected_cashback sim
             = total_cashback (calculate_card_rewards db card spending_pattern)
          /\ Simulation.projected_points sim
             = total_points (calculate_card_rewards db card spending_pattern)
          /\ Simulation.net_benefit sim
             = Simulation.projected_cashback sim - CreditCard.annual_fee card
          /\ Simulation.total_annual_spending sim
             == 12 * Qsum (map snd spending_pattern)).
Proof.
  unfold simulate_card_performance.
  set (wanted := fun c => Z.eqb (CreditCard.id c) card_id && CreditCard.is_active c).
  split; [|split; [|split]].
  - destruct (find wanted (credit_cards db)) as [card|] eqn:Ef.
    + split; [rewrite profiler_raises; discriminate|].
      intro H. exfalso. apply find_some in Ef. destruct Ef as [Hin Hw].
      unfold wanted in Hw. apply andb_true_iff in Hw. destruct Hw as [Hid Hact].
      apply Z.eqb_eq in Hid. rewrite (H card Hin Hid) in Hact. discriminate Hact.
    + split; [|reflexivity]. intros _ card Hin Hid.
      pose proof (find_none _ _ Ef card Hin) as Hw. unfold wanted in Hw.
      rewrite (proj2 (Z.eqb_eq _ _) Hid) in Hw. exact Hw.
  - intros (card0 & Hin0 & Hid0 & Hact0).
    destruct (find wanted (credit_cards db)) as [card|] eqn:Ef.
    + rewrite profiler_raises. reflexivity.
    + exfalso. pose proof (find_none _ _ Ef card0 Hin0) as Hw. unfold wanted in Hw.
      rewrite (proj2 (Z.eqb_eq _ _) Hid0), Hact0 in Hw. discriminate Hw.
  - reflexivity.
  - intros card [|item items] Hne; [contradiction|].
    eexists. split; [reflexivity|]. simpl. repeat split.
    transitivity (Qsum (map (fun x : string * Q => snd x) (item :: items)) * 12).
    + exact (Qsum_scale (fun x : string * Q => snd x) 12 (item :: items)).
    + apply Qmult_comm.
Qed.

Lemma simulate_card_outcomes_witness :
  simulate_card_performance household_db household_now 2 7 = Raised DBAPIError
  /\ simulate_card_performance household_db household_now 3 7
     = Raised (HTTP (mkHTTPException 404 "Credit card not found")).
Proof.
  split.
  - apply (simulate_card_outcomes household_db household_now 2 7).
    exists grocery_card. split; [right; left; reflexivity|]. split; reflexivity.
  - apply (simulate_card_outcomes household_db household_now 3 7).
    intros card [<-|[<-|[]]]; discriminate.
Defined.

(** ** [compare_cards] *)

Lemma assign_ranks_length (i : nat) (l : list Comparison.t) :
  List.length (assign_ranks i l) = List.length l.
Proof.
  revert i. induction l as [|x l IH]; intro i; simpl; [reflexivity|].
  rewrite IH. reflexivity.
Qed.

Lemma assign_ranks_rank (i : nat) (l : list Comparison.t) :
  map Comparison.rank (assign_ranks i l)
  = map (fun k => (Z.of_nat k + 1)%Z) (seq i (List.length l)).
Proof.
  revert i. induction l as [|x l IH]; intro i; simpl; [reflexivity|].
  rewrite IH. reflexivity.
Qed.

Lemma assign_ranks_card_id (i : nat) (l : list Comparison.t) :
  map Comparison.card_id (assign_ranks i l) = map Comparison.card_id l.
Proof.
  revert i. induction l as [|x l IH]; intro i; simpl; [reflexivity|].
  rewrite IH. reflexivity.
Qed.

Lemma in_assign_ranks (i : nat) (l : list Comparison.t) (x : Comparison.t) :
  In x (assign_ranks i l) ->
  exists y, In y l /\ Comparison.net_benefit x = Comparison.net_benefit y.
Proof.
  revert i. induction l as [|y l IH]; intros i H; simpl in H; [contradiction|].
  destruct H as [<-|H].
  - exists y. split; [left; reflexivity|reflexivity].
  - destruct (IH _ H) as (z & Hz & Heq). exists z. split; [right; exact Hz|exact Heq].
Qed.

Lemma assign_ranks_sorted (i : nat) (l : list Comparison.t) :
  StronglySorted (fun a b => Comparison.net_benefit b <= Comparison.net_benefit a) l ->
  StronglySorted (fun a b => Comparison.net_benefit b <= Comparison.net_benefit a)
                 (assign_ranks i l).
Proof.
  revert i. induction l as [|x l IH]; intros i H; simpl; [constructor|].
  inversion H as [|? ? Hl Hx]; subst. constructor; [apply IH; exact Hl|].
  apply Forall_forall. intros y Hy. apply in_assign_ranks in Hy.
  destruct Hy as (z & Hz & Heq). rewrite Forall_forall in Hx.
  simpl. rewrite Heq. exact (Hx z Hz).
Qed.

Lemma compared_ids (db : Session) (cards : list CreditCard.t) (P : list (string * Q)) :
  Permutation
    (map Comparison.card_id
         (assign_ranks 0
            (sort_desc Comparison.net_benefit
               (map (fun card =>
                       Comparison.mk (CreditCard.id card) (CreditCard.name card)
                         (CreditCard.bank card) (CreditCard.annual_fee card)
                         (total_cashback (calculate_card_rewards db card P))
                         (total_points (calculate_card_rewards db card P))
                         (total_cashback (calculate_card_rewards db card P)
                          - CreditCard.annual_fee card) 0)
                    cards))))
    (map CreditCard.id cards).
Proof.
  rewrite assign_ranks_card_id.
  eapply Permutation_trans;
    [apply Permutation_map; apply sort_desc_perm|].
  rewrite map_map. simpl. apply Permutation_refl.
Qed.

(** Lines 195-228 answer 400 on an empty profile.  On another profile they
    return it along with one result per card compared, in non-increasing
    order of net benefit and ranked 1, 2, ... in that order; the net
    benefit of a result is cashback minus annual fee. *)
Theorem compare_cards_ranking (db : Session) (cards : list CreditCard.t)
    (spending_pattern : list (string * Q)) :
  compare_with_pattern db cards []
  = Raised (HTTP (mkHTTPException 400 "No spending data found for comparison"))
  /\ (spending_pattern <> [] ->
      exists results,
        compare_with_pattern db cards spending_pattern
        = Returned (results, spending_pattern)
        /\ Permutation (map Comparison.card_id results) (map CreditCard.id cards)
        /\ map Comparison.rank results
           = map (fun k => (Z.of_nat k + 1)%Z) (seq 0 (List.length cards))
        /\ StronglySorted
             (fun a b => Comparison.net_benefit b <= Comparison.net_benefit a) results
        /\ Forall (fun r => Comparison.net_benefit r
                            = Comparison.projected_cashback r
                              - Comparison.card_annual_fee r) results).
Proof.
  split; [reflexivity|].
  destruct spending_pattern as [|item items]; [intro H; contradiction|]. intros _.
  set (P := item :: items).
  unfold compare_with_pattern. fold P. cbv zeta.
  set (compared := fun card : CreditCard.t =>
         Comparison.mk (CreditCard.id card) (CreditCard.name card)
           (CreditCard.bank card) (CreditCard.annual_fee card)
           (total_cashback (calculate_card_rewards db card P))
           (total_points (calculate_card_rewards db card P))
           (total_cashback (calculate_card_rewards db card P)
            - CreditCard.annual_fee card) 0).
  eexists. split; [reflexivity|].
  assert (Hl : List.length (sort_desc Comparison.net_benefit (map compared cards))
               = List.length cards).
  { rewrite (Permutation_length (sort_desc_perm _ Comparison.net_benefit _)).
    apply length_map. }
  split; [apply compared_ids|].
  split; [rewrite assign_ranks_rank, Hl; reflexivity|].
  split; [apply assign_ranks_sorted; apply sort_desc_sorted|].
  apply Forall_forall. intros r Hr.
  assert (Hsrc : forall i l, In r (assign_ranks i l) ->
                 exists y, In y l
                   /\ Comparison.net_benefit r = Comparison.net_benefit y
                   /\ Comparison.projected_cashback r = Comparison.projected_cashback y
                   /\ Comparison.card_annual_fee r = Comparison.card_annual_fee y).
  { intros i l. revert i. induction l as [|y l IH]; intros i H; simpl in H;
      [contradiction|].
    destruct H as [<-|H].
    - exists y. split; [left; reflexivity|]. repeat split.
    - destruct (IH _ H) as (z & Hz & Heq). exists z. split; [right; exact Hz|exact Heq]. }
  destruct (Hsrc _ _ Hr) as (y & Hy & -> & -> & ->).
  apply (Permutation_in y (sort_desc_perm _ Comparison.net_benefit _)) in Hy.
  apply in_map_iff in Hy. destruct Hy as (card & <- & _). reflexivity.
Qed.

Lemma compare_cards_ranking_witness :
  exists results,
    compare_with_pattern household_db [petrol_card; grocery_card] household_pattern
    = Returned (results, household_pattern)
    /\ map Comparison.rank results = [1; 2]%Z.
Proof.
  destruct (compare_cards_ranking household_db [petrol_card; grocery_card]
              household_pattern) as [_ H].
  destruct H as (results & Heq & _ & Hrank & _); [discriminate|].
  exists results. split; [exact Heq|exact Hrank].
Defined.

Section CompareCards.

Variable db : Session.
Variable card_id_list : list Z.

Hypothesis ids_unique : NoDup (map CreditCard.id (credit_cards db)).

Lemma cards_in_ids_incl :
  incl (map CreditCard.id (cards_in db card_id_list)) card_id_list.
Proof.
  intros x Hx. apply in_map_iff in Hx. destruct Hx as (c & <- & Hc).
  apply filter_In in Hc. destruct Hc as [_ Hreq].
  apply andb_true_iff in Hreq. destruct Hreq as [Hex _].
  apply existsb_exists in Hex. destruct Hex as (y & Hy & Heq).
  apply Z.eqb_eq in Heq. rewrite Heq. exact Hy.
Qed.

Lemma cards_in_ids_distinct : NoDup (map CreditCard.id (cards_in db card_id_list)).
Proof.
  unfold cards_in. revert ids_unique.
  induction (credit_cards db) as [|card rest IH]; simpl; intro Hpk; [constructor|].
  apply NoDup_cons_iff in Hpk. destruct Hpk as [Hfresh Hrest].
  destruct (existsb (Z.eqb (CreditCard.id card)) card_id_list
            && CreditCard.is_active card); simpl; [|exact (IH Hrest)].
  apply NoDup_cons_iff. split; [|exact (IH Hrest)].
  intro Hin. apply Hfresh. apply in_map_iff in Hin.
  destruct Hin as (other & Hid & Hother). apply filter_In in Hother.
  rewrite <- Hid. apply in_map. exact (proj1 Hother).
Qed.

Lemma in_cards_in_ids (id : Z) :
  In id (map CreditCard.id (cards_in db card_id_list))
  <-> In id card_id_list
      /\ exists card, In card (credit_cards db) /\ CreditCard.id card = id
                      /\ CreditCard.is_active card = true.
Proof.
  split.
  - intro H. split; [exact (cards_in_ids_incl id H)|].
    apply in_map_iff in H. destruct H as (card & Hid & Hc).
    apply filter_In in Hc. destruct Hc as [Hin Hreq].
    apply andb_true_iff in Hreq. exists card. tauto.
  - intros [Hid (card & Hin & <- & Hact)]. apply in_map. apply filter_In.
    split; [exact Hin|]. rewrite Hact, andb_true_r.
    apply existsb_exists. exists (CreditCard.id card).
    split; [exact Hid|apply Z.eqb_refl].
Qed.

(** As many cards are found as ids were given exactly when the ids are
    pairwise distinct and each is the id of an active card. *)
Lemma cards_in_all_found :
  List.length (cards_in db card_id_list) = List.length card_id_list
  <-> NoDup card_id_list
      /\ forall id, In id card_id_list ->
                    exists card, In card (credit_cards db) /\ CreditCard.id card = id
                                 /\ CreditCard.is_active card = true.
Proof.
  pose proof cards_in_ids_distinct as Hnd.
  pose proof cards_in_ids_incl as Hincl.
  split.
  - intro Hlen.
    assert (Hle : (List.length card_id_list
                   <= List.length (map CreditCard.id (cards_in db card_id_list)))%nat).
    { rewrite length_map, Hlen. apply Nat.le_refl. }
    split; [exact (NoDup_incl_NoDup Hnd Hle Hincl)|].
    intros id Hid. apply (NoDup_length_incl Hnd Hle Hincl) in Hid.
    apply in_cards_in_ids in Hid. exact (proj2 Hid).
  - intros [Hnd' Hall].
    rewrite <- (length_map CreditCard.id). apply Permutation_length.
    apply NoDup_Permutation; [exact Hnd|exact Hnd'|].
    intro id. rewrite in_cards_in_ids. split; [tauto|].
    intro Hid. split; [exact Hid|exact (Hall id Hid)].
Qed.

End CompareCards.

(** A list of card ids that did not parse is answered 400, and so is a list
    of more than five ids.  With card ids unique in the catalog, a list of
    at most five ids is answered 404 exactly when two of the ids are equal
    or one of them is not the id of an active card; otherwise the call of
    the profiler raises, and the database error is the outcome. *)
Theorem compare_cards_ids (db : Session) (now current_user_id : Z) (card_id_list : list Z) :
  compare_cards db now None current_user_id
  = Raised (HTTP (mkHTTPException 400 "Invalid card IDs format"))
  /\ ((5 < List.length card_id_list)%nat ->
      compare_cards db now (Some card_id_list) current_user_id
      = Raised (HTTP (mkHTTPException 400 "Maximum 5 cards can be compared")))
  /\ ((List.length card_id_list <= 5)%nat ->
      NoDup (map CreditCard.id (credit_cards db)) ->
      let all_found :=
        NoDup card_id_list
        /\ forall id, In id card_id_list ->
                      exists card, In card (credit_cards db) /\ CreditCard.id card = id
                                   /\ CreditCard.is_active card = true in
      (compare_cards db now (Some card_id_list) current_user_id
       = Raised (HTTP (mkHTTPException 404 "One or more cards not found"))
       <-> ~ all_found)
      /\ (all_found ->
          compare_cards db now (Some card_id_list) current_user_id = Raised DBAPIError)).
Proof.
  split; [reflexivity|]. split.
  - intro H. unfold compare_cards.
    rewrite (proj2 (Nat.ltb_lt _ _) H). reflexivity.
  - intros H5 Hpk all_found. unfold compare_cards.
    rewrite (proj2 (Nat.ltb_ge _ _) H5).
    pose proof (cards_in_all_found db card_id_list Hpk) as Hfound.
    fold all_found in Hfound.
    cbv zeta.
    destruct (Nat.eqb (List.length (cards_in db card_id_list))
                      (List.length card_id_list)) eqn:El; cbn [negb].
    + apply Nat.eqb_eq in El. change (get_user_spending_pattern db now current_user_id 3)
        with (@Raised (list (string * Q)) DBAPIError). cbn [bind].
      split; [|intros _; reflexivity].
      split; [discriminate|]. intro H. exfalso. apply H. apply Hfound. exact El.
    + apply Nat.eqb_neq in El. split.
      * split; [|reflexivity]. intros _ H. apply El. apply Hfound. exact H.
      * intro H. exfalso. apply El. apply Hfound. exact H.
Qed.

Lemma compare_cards_ids_witness :
  compare_cards household_db household_now (Some [1; 2; 3; 4; 5; 6]%Z) 7
  = Raised (HTTP (mkHTTPException 400 "Maximum 5 cards can be compared"))
  /\ compare_cards household_db household_now (Some [2; 2]%Z) 7
     = Raised (HTTP (mkHTTPException 404 "One or more cards not found"))
  /\ compare_cards household_db household_now (Some [2; 1]%Z) 7 = Raised DBAPIError.
Proof.
  assert (Hpk : NoDup (map CreditCard.id (credit_cards household_db))).
  { simpl. constructor.
    - intros [H|[]]. discriminate H.
    - constructor; [intros []|constructor]. }
  split; [|split].
  - apply (compare_cards_ids household_db household_now 7 [1; 2; 3; 4; 5; 6]%Z).
    simpl. lia.
  - destruct (compare_cards_ids household_db household_now 7 [2; 2]%Z) as (_ & _ & H).
    destruct (H ltac:(simpl; lia) Hpk) as [H404 _]. apply H404.
    intros [Hnd _]. inversion Hnd as [|? ? Hfresh _]; subst.
    apply Hfresh. left. reflexivity.
  - destruct (compare_cards_ids household_db household_now 7 [2; 1]%Z) as (_ & _ & H).
    destruct (H ltac:(simpl; lia) Hpk) as [_ Hraise]. apply Hraise. split.
    + constructor.
      * intros [H'|[]]. discriminate H'.
      * constructor; [intros []|constructor].
    + intros id [<-|[<-|[]]].
      * exists grocery_card. split; [right; left; reflexivity|]. split; reflexivity.
      * exists petrol_card. split; [left; reflexivity|]. split; reflexivity.
Defined.
